(** * TradingView sync server (src/index.js): presence registry, leader
    election and shared state store.

    The server keeps two process-wide JavaScript objects, [syncState] and
    [connectedBrowsers], and mutates them from the request handlers and from
    a 10 second interval timer.  Node runs every handler and the timer
    callback to completion on one thread, so each of them is embedded as a
    function from the state before to the state after (and the response).

    Conventions of the embedding:
    - a plain JS object used as a dictionary is a [gmap string _]; the order
      in which [Object.entries] lists the keys is not modelled: the sweep
      does not depend on it ([sweep_loop_Permutation]) and the snapshot is
      described record by record;
    - a JSON value is a [value]; numbers are integers ([Z]), which is what
      [Date.now()] and the clients send; [undefined] is [None];
    - [Date.now()] is the argument [now] of a handler: one handler run reads
      the clock within one millisecond;
    - browser ids are strings and the two heartbeat timestamps of a request
      are numbers, as the clients of this server send them; every other
      request field is an arbitrary JSON value and only its truthiness or
      its identity is used, as in the source;
    - a JS string is a [string] of characters (ids are ASCII);
    - an assignment [obj[key] = v] to a plain object adds or replaces the
      own property [key], except for the key [__proto__], which is the
      accessor inherited from [Object.prototype]: the assignment sets the
      prototype of [obj] and adds no own property, so [Object.entries] and
      [Object.keys] never show it.  Object spread and rest copy own
      properties and treat [__proto__] like any other key. *)

From stdpp Require Import gmap strings list fin_maps.
From Stdlib Require Import ZArith Lia.

Local Open Scope Z_scope.
Set Warnings "-register-all".

(** ** JSON values and the JavaScript operators the handlers apply to them *)

Inductive value : Type :=
| VNull
| VBool (b : bool)
| VNum (n : Z)
| VStr (s : string)
| VArr (items : list value)
| VObj (props : list (string * value)).

(** ToBoolean: [null], [false], [0] and the empty string are falsy, arrays
    and objects are truthy. *)
Definition truthy (v : value) : bool :=
  match v with
  | VNull => false
  | VBool b => b
  | VNum n => negb (n =? 0)
  | VStr s => negb (bool_decide (s = ""))
  | VArr _ | VObj _ => true
  end.

(** Truthiness of a possibly missing property ([undefined] is falsy). *)
Definition truthy_opt (o : option value) : bool :=
  match o with
  | Some v => truthy v
  | None => false
  end.

(** [a || b] where [a] may be [undefined]. *)
Definition js_or (a : option value) (b : value) : value :=
  match a with
  | Some v => if truthy v then v else b
  | None => b
  end.

(** [if (browserId)] on an id that is a string, [null] or [undefined]. *)
Definition given (id : option string) : bool :=
  match id with
  | Some s => negb (bool_decide (s = ""))
  | None => false
  end.

(** [timestamp || Date.now()] on a timestamp that is a number or missing. *)
Definition or_now (ts : option Z) (now : Z) : Z :=
  match ts with
  | Some t => if t =? 0 then now else t
  | None => now
  end.

(** [s.slice(-n)]: the last [n] characters, the whole string when shorter. *)
Definition slice_last (n : nat) (s : string) : string :=
  String.substring (String.length s - n) n s.

(** ToNumber on the values a handler can find under [leaderHeartbeat];
    [None] is NaN.  Strings and containers would need the string-to-number
    conversion; no handler stores one there ([typed_run] below) and the
    model reads them as NaN. *)
Definition to_number (o : option value) : option Z :=
  match o with
  | Some (VNum n) => Some n
  | Some VNull => Some 0
  | Some (VBool b) => Some (if b then 1 else 0)
  | _ => None
  end.

(** [Math.round(d / 1000)] for an integer [d]: round half up. *)
Definition round_seconds (d : Z) : Z := (d + 500) / 1000.

(** ** State *)

(** A value of [connectedBrowsers]: [{ lastSeen, tf }]. *)
Record info : Type := Info { lastSeen : Z; tf : value }.

(** The two module-level variables. *)
Record server : Type := Server {
  syncState : gmap string value;
  connectedBrowsers : gmap string info
}.

(** The object literal of lines 18-28 and 254-264. *)
Definition default_syncState : gmap string value :=
  <["leaderId" := VNull]>
  (<["leaderHeartbeat" := VNum 0]>
  (<["currentIndex" := VNum 0]>
  (<["rotateInterval" := VNum 7]>
  (<["fetchInterval" := VNum 120]>
  (<["colLInterval" := VNum 10]>
  (<["selectedFilters" := VArr [VStr "Comfortable"]]>
  (<["filteredData" := VArr []]>
  (<["alertSettings" := VObj []]> ∅)))))))).

Definition initial : server :=
  {| syncState := default_syncState; connectedBrowsers := ∅ |}.

Definition BROWSER_TIMEOUT : Z := 30000.
Definition leaderTimeout : Z := 8000.

(** [syncState.leaderId === id] for a string [id]. *)
Definition leader_is (ss : gmap string value) (id : string) : bool :=
  match ss !! "leaderId" with
  | Some (VStr l) => bool_decide (l = id)
  | _ => false
  end.

(** [syncState.leaderId = null; syncState.leaderHeartbeat = 0]. *)
Definition clear_leader (ss : gmap string value) : gmap string value :=
  <["leaderHeartbeat" := VNum 0]> (<["leaderId" := VNull]> ss).

(** [syncState.leaderId = id; syncState.leaderHeartbeat = hb]. *)
Definition set_leader (id : string) (hb : Z) (ss : gmap string value)
  : gmap string value :=
  <["leaderHeartbeat" := VNum hb]> (<["leaderId" := VStr id]> ss).

(** ** The sweep timer (lines 35-56) *)

(** [now - info.lastSeen > BROWSER_TIMEOUT]. *)
Definition stale (now : Z) (i : info) : bool :=
  now - lastSeen i >? BROWSER_TIMEOUT.

(** One iteration of the [for ... of Object.entries(connectedBrowsers)]
    body, on the entry [(browserId, info)] of the snapshot. *)
Definition sweep_entry (now : Z) (entry : string * info) (s : server) : server :=
  let '(browserId, i) := entry in
  if stale now i then
    {| syncState :=
         if leader_is (syncState s) browserId
         then clear_leader (syncState s) else syncState s;
       connectedBrowsers := delete browserId (connectedBrowsers s) |}
  else s.

Fixpoint sweep_loop (now : Z) (entries : list (string * info)) (s : server)
  : server :=
  match entries with
  | [] => s
  | e :: rest => sweep_loop now rest (sweep_entry now e s)
  end.

Definition sweep (now : Z) (s : server) : server :=
  sweep_loop now (map_to_list (connectedBrowsers s)) s.

(** The same loop with its counter [cleaned] (lines 37 and 42). *)
Fixpoint sweep_count (now : Z) (entries : list (string * info)) (s : server)
    (cleaned : nat) : server * nat :=
  match entries with
  | [] => (s, cleaned)
  | e :: rest =>
      sweep_count now rest (sweep_entry now e s)
        (if stale now e.2 then S cleaned else cleaned)
  end.

(** One run of the timer callback: the state after, and the two numbers of
    the log line of line 54, [cleaned] and [Active], when it is printed. *)
Definition sweep_tick (now : Z) (s : server) : server * option (nat * nat) :=
  let '(s', cleaned) := sweep_count now (map_to_list (connectedBrowsers s)) s 0 in
  (s', if (0 <? cleaned)%nat
       then Some (cleaned, size (connectedBrowsers s')) else None).

(** ** Helper functions (lines 62-100) *)

Inductive status : Type := online | leader | warning | offline.

#[global] Instance status_eq_dec : EqDecision status.
Proof. solve_decision. Defined.

(** One element of [browsersList]; [b_lastSeen] is the number in front of
    ['s ago']. *)
Record browser : Type := Browser {
  b_id : string;
  b_browserId : string;
  b_isLeader : bool;
  b_status : status;
  b_lastSeen : Z;
  b_tf : value
}.

Record browser_stats : Type := Stats {
  totalBrowsers : nat;
  browsersOnline : nat;
  browsersList : list browser
}.

Definition status_of (isLeader : bool) (secondsAgo : Z) : status :=
  if isLeader then leader
  else if secondsAgo >? 10 then warning
  else if secondsAgo >? 20 then offline
  else online.

Definition browser_of (now : Z) (ss : gmap string value)
    (entry : string * info) : browser :=
  let '(id, i) := entry in
  let isLeader := leader_is ss id in
  let secondsAgo := round_seconds (now - lastSeen i) in
  {| b_id := slice_last 8 id;
     b_browserId := id;
     b_isLeader := isLeader;
     b_status := status_of isLeader secondsAgo;
     b_lastSeen := secondsAgo;
     b_tf := js_or (Some (tf i)) (VStr "5") |}.

Definition getBrowserStats (now : Z) (s : server) : browser_stats :=
  let browsers :=
    map (browser_of now (syncState s)) (map_to_list (connectedBrowsers s)) in
  {| totalBrowsers := length browsers;
     browsersOnline :=
       length (filter (λ b, b_status b ≠ offline) browsers);
     browsersList := browsers |}.

(** [connectedBrowsers[browserId] = { lastSeen: Date.now(), tf: tf || '5' }].
    For the id [__proto__] the assignment replaces the prototype of
    [connectedBrowsers] and the set of its own properties, which is all the
    rest of the code reads, stays as it is (the registry never has an own
    property of that name: [no_proto_record]). *)
Definition registerBrowser (now : Z) (browserId : string) (tag : option value)
    (cb : gmap string info) : gmap string info :=
  if bool_decide (browserId = "__proto__") then cb
  else <[browserId := {| lastSeen := now; tf := js_or tag (VStr "5") |}]> cb.

(** ** Requests and responses *)

(** Body of POST /claim-leader: [{ browserId, timestamp, force, tf }]. *)
Record claim_request : Type := ClaimRequest {
  cl_browserId : option string;
  cl_timestamp : option Z;
  cl_force : option value;
  cl_tf : option value
}.

(** Body of POST /heartbeat: [{ browserId, tf, isLeader }]. *)
Record heartbeat_request : Type := HeartbeatRequest {
  hb_browserId : option string;
  hb_tf : option value;
  hb_isLeader : option value
}.

(** Body of POST /sync-state, as line 138 takes it apart:
    [{ leaderId, leaderHeartbeat, ...rest }].  [su_rest] is any object: the
    handler removes the two election keys from it once more (line 151). *)
Record state_update : Type := StateUpdate {
  su_leaderId : option string;
  su_leaderHeartbeat : option Z;
  su_rest : gmap string value
}.

Inductive response : Type :=
| BadRequest (error : string)
    (* status 400, { success: false, error } *)
| ClaimGranted (leaderId : string) (stats : browser_stats)
    (* { success: true, leaderId, ...stats } *)
| ClaimDenied (leaderId : option value) (reason : string) (stats : browser_stats)
    (* { success: false, leaderId, reason, ...stats } *)
| Success (stats : browser_stats)
    (* { success: true, ...stats } *)
| StateView (state : gmap string value) (stats : browser_stats)
    (* { ...syncState, ...stats } *)
| BrowsersView (stats : browser_stats)
| ResetDone (message : string)
    (* { success: true, message } *)
| HealthView (browsers : nat) (leaderShort : string)
| RootView (currentLeader : string) (lastHeartbeat : option value)
    (stats : browser_stats).

(** The [success] property of a response body, when it has one. *)
Definition success (r : response) : option bool :=
  match r with
  | BadRequest _ | ClaimDenied _ _ _ => Some false
  | ClaimGranted _ _ | Success _ | ResetDone _ => Some true
  | StateView _ _ | BrowsersView _ | HealthView _ _ | RootView _ _ _ => None
  end.

(** The HTTP status: 400 where the handler sets it, else Express's 200. *)
Definition http_status (r : response) : Z :=
  match r with
  | BadRequest _ => 400
  | _ => 200
  end.

(** The presence snapshot spread into a response body. *)
Definition stats_of (r : response) : option browser_stats :=
  match r with
  | ClaimGranted _ st | ClaimDenied _ _ st | Success st
  | StateView _ st | BrowsersView st | RootView _ _ st => Some st
  | BadRequest _ | ResetDone _ | HealthView _ _ => None
  end.

(** ** Endpoints (lines 107-267) *)

(** [syncState.leaderId ? syncState.leaderId.slice(-8) : 'none'].  The
    property holds [null] or a string ([typed_run]). *)
Definition leader_short (ss : gmap string value) : string :=
  match ss !! "leaderId" with
  | Some (VStr l) => if bool_decide (l = "") then "none" else slice_last 8 l
  | _ => "none"
  end.

Definition health (s : server) : server * response :=
  (s, HealthView (size (connectedBrowsers s)) (leader_short (syncState s))).

(** The keys of [stats] shadow equal keys of [syncState] in
    [{ ...syncState, ...browserStats }]. *)
Definition state_view (ss : gmap string value) : gmap string value :=
  delete "totalBrowsers" (delete "browsersOnline" (delete "browsersList" ss)).

(** GET /sync-state, with the query parameters [browserId] and [tf]. *)
Definition get_sync_state (now : Z) (browserId : option string)
    (tag : option value) (s : server) : server * response :=
  let s1 :=
    if given browserId
    then {| syncState := syncState s;
            connectedBrowsers :=
              registerBrowser now (default "" browserId) tag (connectedBrowsers s) |}
    else s in
  (s1, StateView (state_view (syncState s1)) (getBrowserStats now s1)).

(** Line 151: [rest] without the two election keys. *)
Definition stateUpdates (rest : gmap string value) : gmap string value :=
  delete "leaderId" (delete "leaderHeartbeat" rest).

(** POST /sync-state.  [{ ...syncState, ...stateUpdates }] takes a key from
    [stateUpdates] when it is there and from [syncState] otherwise, which is
    the left-biased union. *)
Definition post_sync_state (now : Z) (body : state_update) (s : server)
  : server * response :=
  let leaderId := default "" (su_leaderId body) in
  let cb1 :=
    if given (su_leaderId body)
    then registerBrowser now leaderId (su_rest body !! "tf") (connectedBrowsers s)
    else connectedBrowsers s in
  let ss1 :=
    if given (su_leaderId body) && leader_is (syncState s) leaderId
    then <["leaderHeartbeat" := VNum (or_now (su_leaderHeartbeat body) now)]>
           (syncState s)
    else syncState s in
  let s' := {| syncState := stateUpdates (su_rest body) ∪ ss1;
               connectedBrowsers := cb1 |} in
  (s', Success (getBrowserStats now s')).

(** [Date.now() - syncState.leaderHeartbeat > leaderTimeout]; a comparison
    with NaN is false. *)
Definition timed_out (now : Z) (ss : gmap string value) : bool :=
  match to_number (ss !! "leaderHeartbeat") with
  | Some hb => now - hb >? leaderTimeout
  | None => false
  end.

(** POST /claim-leader. *)
Definition claim_leader (now : Z) (req : claim_request) (s : server)
  : server * response :=
  if negb (given (cl_browserId req)) then (s, BadRequest "browserId required")
  else
    let browserId := default "" (cl_browserId req) in
    let cb1 := registerBrowser now browserId (cl_tf req) (connectedBrowsers s) in
    let ss := syncState s in
    let currentLeaderShort := leader_short ss in
    let granted (ss' : gmap string value) :=
      let s' := {| syncState := ss'; connectedBrowsers := cb1 |} in
      (s', ClaimGranted browserId (getBrowserStats now s')) in
    if truthy_opt (cl_force req) then
      granted (set_leader browserId (or_now (cl_timestamp req) now) ss)
    else if negb (truthy_opt (ss !! "leaderId")) || timed_out now ss then
      granted (set_leader browserId (or_now (cl_timestamp req) now) ss)
    else if leader_is ss browserId then
      granted (<["leaderHeartbeat" := VNum (or_now (cl_timestamp req) now)]> ss)
    else
      let s' := {| syncState := ss; connectedBrowsers := cb1 |} in
      (s', ClaimDenied (ss !! "leaderId")
             ("Leader " +:+ currentLeaderShort +:+ " is active")
             (getBrowserStats now s')).

(** POST /heartbeat. *)
Definition heartbeat (now : Z) (req : heartbeat_request) (s : server)
  : server * response :=
  if negb (given (hb_browserId req)) then (s, BadRequest "browserId required")
  else
    let browserId := default "" (hb_browserId req) in
    let cb1 := registerBrowser now browserId (hb_tf req) (connectedBrowsers s) in
    let ss1 :=
      if truthy_opt (hb_isLeader req) && leader_is (syncState s) browserId
      then <["leaderHeartbeat" := VNum now]> (syncState s)
      else syncState s in
    let s' := {| syncState := ss1; connectedBrowsers := cb1 |} in
    (s', Success (getBrowserStats now s')).

(** GET /browsers. *)
Definition get_browsers (now : Z) (s : server) : server * response :=
  (s, BrowsersView (getBrowserStats now s)).

(** POST /reset. *)
Definition reset (s : server) : server * response :=
  ({| syncState := default_syncState; connectedBrowsers := ∅ |},
   ResetDone "State reset").

(** GET /: the server info, without its constant fields. *)
Definition get_root (now : Z) (s : server) : server * response :=
  (s, RootView (leader_short (syncState s))
        (syncState s !! "leaderHeartbeat") (getBrowserStats now s)).

(** ** The server as a transition system *)

(** What can happen to the state: one of the requests, or a timer tick. *)
Inductive event : Type :=
| GetState (browserId : option string) (tag : option value)
| PostState (body : state_update)
| ClaimLeader (req : claim_request)
| Heartbeat (req : heartbeat_request)
| GetBrowsers
| Reset
| HealthCheck
| Root
| Sweep.

(** The state after an event, and the response when the event is a request. *)
Definition handle (now : Z) (e : event) (s : server) : server * option response :=
  let answered (p : server * response) := (p.1, Some p.2) in
  match e with
  | GetState browserId tag => answered (get_sync_state now browserId tag s)
  | PostState body => answered (post_sync_state now body s)
  | ClaimLeader req => answered (claim_leader now req s)
  | Heartbeat req => answered (heartbeat now req s)
  | GetBrowsers => answered (get_browsers now s)
  | Reset => answered (reset s)
  | HealthCheck => answered (health s)
  | Root => answered (get_root now s)
  | Sweep => (sweep now s, None)
  end.

Definition run (now : Z) (e : event) (s : server) : server :=
  (handle now e s).1.

(** States the server can be in: [initial] at start, then any sequence of
    events at any clock readings. *)
Inductive reachable : server → Prop :=
| reachable_initial : reachable initial
| reachable_run now e s : reachable s → reachable (run now e s).

(** ** Predicates of the specification *)

(** The iteration of the sweep on this entry clears leadership in [ss]. *)
Definition evicts_leader (now : Z) (ss : gmap string value)
    (e : string * info) : bool :=
  stale now e.2 && leader_is ss e.1.

(** The election fields hold what the handlers put there: [leaderId] is
    [null] or a non-empty string, [leaderHeartbeat] is a number. *)
Definition typed (ss : gmap string value) : Prop :=
  (ss !! "leaderId" = Some VNull ∨
   ∃ id, id ≠ "" ∧ ss !! "leaderId" = Some (VStr id)) ∧
  ∃ hb, ss !! "leaderHeartbeat" = Some (VNum hb).

(** A non-empty [leaderId] is the key of a record of the registry. *)
Definition leader_registered (s : server) : Prop :=
  ∀ v, syncState s !! "leaderId" = Some v → truthy v = true →
       ∃ id, v = VStr id ∧ is_Some (connectedBrowsers s !! id).

(** The same for every leader but one called [__proto__]. *)
Definition leader_has_record (s : server) : Prop :=
  ∀ v, syncState s !! "leaderId" = Some v → truthy v = true →
       ∃ id, v = VStr id ∧
             (id ≠ "__proto__" → is_Some (connectedBrowsers s !! id)).

(** No leader, or a falsy [leaderId]: the test [!syncState.leaderId]. *)
Definition vacant (ss : gmap string value) : bool :=
  negb (truthy_opt (ss !! "leaderId")).

(** Without a leader the stored heartbeat is 0. *)
Definition vacant_zero (ss : gmap string value) : Prop :=
  vacant ss = true → ss !! "leaderHeartbeat" = Some (VNum 0).

(** The timestamp a request brings for [leaderHeartbeat], if any. *)
Definition supplied_timestamp (e : event) : option Z :=
  match e with
  | ClaimLeader req => cl_timestamp req
  | PostState body => su_leaderHeartbeat body
  | _ => None
  end.

(** The id a request registers, and the tag it registers it with. *)
Definition caller (e : event) : option string :=
  match e with
  | GetState browserId _ => browserId
  | PostState body => su_leaderId body
  | ClaimLeader req => cl_browserId req
  | Heartbeat req => hb_browserId req
  | _ => None
  end.

Definition caller_tag (e : event) : option value :=
  match e with
  | GetState _ tag => tag
  | PostState body => su_rest body !! "tf"
  | ClaimLeader req => cl_tf req
  | Heartbeat req => hb_tf req
  | _ => None
  end.

(** A request, as opposed to a timer tick or a reset. *)
Definition keeps_registry (e : event) : bool :=
  match e with
  | Reset | Sweep => false
  | _ => true
  end.

(** Every record holds a truthy tag. *)
Definition tags_truthy (cb : gmap string info) : Prop :=
  ∀ k i, cb !! k = Some i → truthy (tf i) = true.

(** Every key of the default shape is a key of [ss]. *)
Definition has_default_keys (ss : gmap string value) : Prop :=
  ∀ k : string, is_Some (default_syncState !! k) → is_Some (ss !! k).

(** The event is one by which the leader [a] renews its heartbeat: its
    claim, its state post, or its heartbeat with [isLeader] set. *)
Definition renews (e : event) (a : string) : bool :=
  match e with
  | ClaimLeader req => bool_decide (cl_browserId req = Some a)
  | PostState body => bool_decide (su_leaderId body = Some a)
  | Heartbeat req =>
      bool_decide (hb_browserId req = Some a) && truthy_opt (hb_isLeader req)
  | _ => false
  end.

(** ** Scenarios *)

(** A browser whose id is [__proto__] claims at 1000 on the fresh server. *)
Definition held_by_proto : server :=
  run 1000
    (ClaimLeader {| cl_browserId := Some "__proto__"; cl_timestamp := None;
                    cl_force := None; cl_tf := None |}) initial.

(** A plain claim: no force, no tag. *)
Definition claim_by (id : string) (ts : option Z) : claim_request :=
  {| cl_browserId := Some id; cl_timestamp := ts;
     cl_force := None; cl_tf := None |}.

(** "A" claimed at 1000 and is the leader since. *)
Definition held_by_A : server :=
  run 1000 (ClaimLeader (claim_by "A" None)) initial.

(** "A" claims at 5000, then claims again at 6000 with a timestamp of
    1000 from its own clock. *)
Definition first_claim : server :=
  run 5000 (ClaimLeader (claim_by "A" None)) initial.
Definition second_claim : server :=
  run 6000 (ClaimLeader (claim_by "A" (Some 1000))) first_claim.

(** A post from a browser that is not the leader, whose payload carries a
    known field, an unknown field and both election keys. *)
Definition payload_with_election_keys : state_update :=
  {| su_leaderId := Some "B";
     su_leaderHeartbeat := Some 7;
     su_rest := <["currentIndex" := VNum 3]>
                (<["symbol" := VStr "XYZ"]>
                (<["leaderId" := VStr "B"]>
                (<["leaderHeartbeat" := VNum 7]> ∅))) |}.

(** A post without [leaderId] that sets [currentIndex]. *)
Definition anonymous_update : state_update :=
  {| su_leaderId := None; su_leaderHeartbeat := None;
     su_rest := {["currentIndex" := VNum 3]} |}.

(** "b" polled the state at 0 and nobody is leader. *)
Definition seen_at_0 : server := run 0 (GetState (Some "b") None) initial.

(** * Properties *)

(** ** Reading the election fields after the handlers' assignments *)

Lemma set_leader_id id hb ss : set_leader id hb ss !! "leaderId" = Some (VStr id).
Proof. unfold set_leader. by simplify_map_eq. Qed.

Lemma set_leader_hb id hb ss :
  set_leader id hb ss !! "leaderHeartbeat" = Some (VNum hb).
Proof. unfold set_leader. by simplify_map_eq. Qed.

Lemma clear_leader_id ss : clear_leader ss !! "leaderId" = Some VNull.
Proof. unfold clear_leader. by simplify_map_eq. Qed.

Lemma clear_leader_hb ss : clear_leader ss !! "leaderHeartbeat" = Some (VNum 0).
Proof. unfold clear_leader. by simplify_map_eq. Qed.

Lemma refresh_id hb (ss : gmap string value) :
  <["leaderHeartbeat" := VNum hb]> ss !! "leaderId" = ss !! "leaderId".
Proof. by simplify_map_eq. Qed.

Create Rewrite HintDb election.
#[global] Hint Rewrite set_leader_id set_leader_hb clear_leader_id
  clear_leader_hb refresh_id : election.

Lemma leader_is_spec (ss : gmap string value) id :
  leader_is ss id = true ↔ ss !! "leaderId" = Some (VStr id).
Proof.
  unfold leader_is. destruct (ss !! "leaderId") as [[]|]; try (split; done).
  rewrite bool_decide_eq_true. split; congruence.
Qed.

Lemma leader_is_clear ss id : leader_is (clear_leader ss) id = false.
Proof. unfold leader_is. by autorewrite with election. Qed.

Lemma leader_is_refresh hb ss id :
  leader_is (<["leaderHeartbeat" := VNum hb]> ss) id = leader_is ss id.
Proof. unfold leader_is. by rewrite refresh_id. Qed.

(** ** The sweep loop *)

Section Sweep.
  Variable now : Z.

Lemma sweep_entry_syncState e s :
  syncState (sweep_entry now e s) =
  if evicts_leader now (syncState s) e
  then clear_leader (syncState s) else syncState s.
Proof.
  destruct e as [k i]. unfold sweep_entry, evicts_leader, stale. simpl.
  destruct (now - lastSeen i >? BROWSER_TIMEOUT); simpl; [|done].
  by destruct (leader_is (syncState s) k).
Qed.

Lemma sweep_entry_browsers e s :
  connectedBrowsers (sweep_entry now e s) =
  if stale now e.2 then delete e.1 (connectedBrowsers s) else connectedBrowsers s.
Proof.
  destruct e as [k i]. unfold sweep_entry, stale. simpl.
  by destruct (now - lastSeen i >? BROWSER_TIMEOUT).
Qed.

(** Leadership is cleared at the first stale entry that is the leader's,
    and no later iteration finds a leader to clear. *)
Lemma sweep_loop_syncState l s :
  syncState (sweep_loop now l s) =
  if existsb (evicts_leader now (syncState s)) l
  then clear_leader (syncState s) else syncState s.
Proof.
  revert s. induction l as [|e l IH]; intros s; simpl; [done|].
  rewrite IH, sweep_entry_syncState.
  destruct (evicts_leader now (syncState s) e) eqn:He; simpl; [|done].
  assert (existsb (evicts_leader now (clear_leader (syncState s))) l = false) as ->.
  { clear. induction l as [|[k i] l IHl]; simpl; [done|].
    unfold evicts_leader at 1. simpl.
    by rewrite leader_is_clear, andb_false_r. }
  done.
Qed.

(** The loop only deletes. *)
Lemma sweep_loop_lookup_None l s (k : string) :
  connectedBrowsers s !! k = None →
  connectedBrowsers (sweep_loop now l s) !! k = None.
Proof.
  revert s. induction l as [|e l IH]; intros s Hk; simpl; [done|].
  apply IH. rewrite sweep_entry_browsers.
  destruct (stale now e.2); [|done].
  destruct (decide (e.1 = k)) as [->|Hne].
  - apply lookup_delete_eq.
  - by rewrite lookup_delete_ne.
Qed.

Lemma sweep_loop_lookup_stale l s (k : string) (i : info) :
  (k, i) ∈ l → stale now i = true →
  connectedBrowsers (sweep_loop now l s) !! k = None.
Proof.
  revert s. induction l as [|e l IH]; intros s Hin Hst.
  - by apply elem_of_nil in Hin.
  - simpl. apply elem_of_cons in Hin as [<-|Hin]; [|by eapply IH].
    apply sweep_loop_lookup_None. rewrite sweep_entry_browsers. simpl.
    rewrite Hst. apply lookup_delete_eq.
Qed.

Lemma sweep_loop_lookup_fresh l s (k : string) :
  (∀ i, (k, i) ∈ l → stale now i = false) →
  connectedBrowsers (sweep_loop now l s) !! k = connectedBrowsers s !! k.
Proof.
  revert s. induction l as [|e l IH]; intros s Hfresh; simpl; [done|].
  rewrite IH by (intros i Hi; apply Hfresh; by apply elem_of_cons; right).
  rewrite sweep_entry_browsers.
  destruct (stale now e.2) eqn:Hst; [|done].
  destruct e as [k' i']. simpl in *.
  destruct (decide (k' = k)) as [->|Hne]; [|by rewrite lookup_delete_ne].
  rewrite Hfresh in Hst; [done|]. apply elem_of_cons; by left.
Qed.

(** What one timer tick leaves of the registry, key by key. *)
Lemma sweep_lookup s (k : string) :
  connectedBrowsers (sweep now s) !! k =
  match connectedBrowsers s !! k with
  | Some i => if stale now i then None else Some i
  | None => None
  end.
Proof.
  unfold sweep. destruct (connectedBrowsers s !! k) as [i|] eqn:Hk.
  - destruct (stale now i) eqn:Hst.
    + eapply sweep_loop_lookup_stale; [|done]. by apply elem_of_map_to_list.
    + rewrite sweep_loop_lookup_fresh; [done|].
      intros i' Hi'%elem_of_map_to_list. congruence.
  - by apply sweep_loop_lookup_None.
Qed.

(** What one timer tick does to [syncState]. *)
Lemma sweep_syncState s :
  syncState (sweep now s) =
  match syncState s !! "leaderId" with
  | Some (VStr l) =>
      match connectedBrowsers s !! l with
      | Some i => if stale now i then clear_leader (syncState s) else syncState s
      | None => syncState s
      end
  | _ => syncState s
  end.
Proof.
  unfold sweep. rewrite sweep_loop_syncState.
  destruct (existsb _ _) eqn:Hex.
  - apply existsb_exists in Hex as ([k i] & Hin & Hev).
    apply list_elem_of_In, elem_of_map_to_list in Hin.
    apply andb_true_iff in Hev as [Hst Hl]. simpl in *.
    apply leader_is_spec in Hl. by rewrite Hl, Hin, Hst.
  - destruct (syncState s !! "leaderId") as [[| | |l| |]|] eqn:Hl; try done.
    destruct (connectedBrowsers s !! l) as [i|] eqn:Hi; [|done].
    destruct (stale now i) eqn:Hst; [|done].
    assert (existsb (evicts_leader now (syncState s))
              (map_to_list (connectedBrowsers s)) = true) as Habs; [|congruence].
    apply existsb_exists. exists (l, i). split.
    + by apply list_elem_of_In, elem_of_map_to_list.
    + unfold evicts_leader. simpl. rewrite Hst. simpl. by apply leader_is_spec.
Qed.

(** The snapshot may list the entries in any order: the loop gives the
    same state for every arrangement of the same entries. *)
Lemma existsb_Permutation {A} (f : A → bool) (l l' : list A) :
  l ≡ₚ l' → existsb f l = existsb f l'.
Proof.
  intros Hp. apply eq_true_iff_eq. rewrite !existsb_exists.
  split; intros (x & Hx & Hf); exists x; (split; [|done]).
  - by eapply Permutation_in.
  - eapply Permutation_in; [symmetry; exact Hp | done].
Qed.

Lemma sweep_loop_Permutation l l' s :
  l ≡ₚ l' → sweep_loop now l s = sweep_loop now l' s.
Proof.
  intros Hp.
  assert (syncState (sweep_loop now l s) = syncState (sweep_loop now l' s)) as Hss.
  { by rewrite !sweep_loop_syncState, (existsb_Permutation _ _ _ Hp). }
  assert (connectedBrowsers (sweep_loop now l s)
          = connectedBrowsers (sweep_loop now l' s)) as Hcb.
  { apply map_eq. intros k.
    destruct (decide (Exists (λ e, e.1 = k ∧ stale now e.2 = true) l))
      as [Hex|Hnex].
    - apply Exists_exists in Hex as ([k' i] & Hin & Hk & Hst). simpl in *. subst k'.
      rewrite (sweep_loop_lookup_stale l s k i Hin Hst).
      symmetry. eapply sweep_loop_lookup_stale; [|exact Hst].
      by rewrite <- Hp.
    - assert (∀ m, m ≡ₚ l → ∀ i, (k, i) ∈ m → stale now i = false) as Hfresh.
      { intros m Hm i Hi. destruct (stale now i) eqn:Hst; [|done].
        destruct Hnex. apply Exists_exists. exists (k, i).
        split; [by rewrite <- Hm | done]. }
      rewrite !sweep_loop_lookup_fresh; [done | |]; by apply Hfresh. }
  destruct (sweep_loop now l s), (sweep_loop now l' s). simpl in *. congruence.
Qed.

End Sweep.

(** ** The merge of POST /sync-state, key by key *)

Lemma stateUpdates_leaderId rest : stateUpdates rest !! "leaderId" = None.
Proof. unfold stateUpdates. apply lookup_delete_eq. Qed.

Lemma stateUpdates_leaderHeartbeat rest :
  stateUpdates rest !! "leaderHeartbeat" = None.
Proof.
  unfold stateUpdates. rewrite lookup_delete_ne by done. apply lookup_delete_eq.
Qed.

Lemma stateUpdates_other rest (k : string) :
  k ≠ "leaderId" → k ≠ "leaderHeartbeat" → stateUpdates rest !! k = rest !! k.
Proof. intros. unfold stateUpdates. by rewrite !lookup_delete_ne. Qed.

Lemma merge_leaderId rest (ss : gmap string value) :
  (stateUpdates rest ∪ ss) !! "leaderId" = ss !! "leaderId".
Proof. apply lookup_union_r, stateUpdates_leaderId. Qed.

Lemma merge_leaderHeartbeat rest (ss : gmap string value) :
  (stateUpdates rest ∪ ss) !! "leaderHeartbeat" = ss !! "leaderHeartbeat".
Proof. apply lookup_union_r, stateUpdates_leaderHeartbeat. Qed.

Lemma merge_other rest (ss : gmap string value) (k : string) :
  k ≠ "leaderId" → k ≠ "leaderHeartbeat" →
  (stateUpdates rest ∪ ss) !! k =
  match rest !! k with Some v => Some v | None => ss !! k end.
Proof.
  intros H1 H2. rewrite lookup_union, stateUpdates_other by done.
  by destruct (rest !! k), (ss !! k).
Qed.

#[global] Hint Rewrite merge_leaderId merge_leaderHeartbeat : election.

(** ** The registry after a touch *)

Lemma registerBrowser_lookup now id tag (cb : gmap string info) :
  id ≠ "__proto__" →
  registerBrowser now id tag cb !! id =
  Some {| lastSeen := now; tf := js_or tag (VStr "5") |}.
Proof.
  intros Hid. unfold registerBrowser. rewrite bool_decide_eq_false_2 by done.
  apply lookup_insert_eq.
Qed.

Lemma registerBrowser_proto now tag (cb : gmap string info) :
  registerBrowser now "__proto__" tag cb = cb.
Proof. done. Qed.

Lemma registerBrowser_other now id tag (cb : gmap string info) (k : string) :
  k ≠ id → registerBrowser now id tag cb !! k = cb !! k.
Proof.
  intros. unfold registerBrowser. case_bool_decide; [done|].
  by rewrite lookup_insert_ne.
Qed.

Lemma registerBrowser_keeps now id tag (cb : gmap string info) (k : string) :
  is_Some (cb !! k) → is_Some (registerBrowser now id tag cb !! k).
Proof.
  intros Hk. unfold registerBrowser. case_bool_decide; [done|].
  destruct (decide (id = k)) as [->|Hne].
  - rewrite lookup_insert_eq. eauto.
  - by rewrite lookup_insert_ne.
Qed.

Lemma registerBrowser_idem now id tag (cb : gmap string info) :
  registerBrowser now id tag (registerBrowser now id tag cb)
  = registerBrowser now id tag cb.
Proof.
  unfold registerBrowser. case_bool_decide; [done|]. apply insert_insert_eq.
Qed.

(** A record of the registry after a touch is the one just written or one
    that was there. *)
Lemma registerBrowser_inv now id tag (cb : gmap string info) (k : string) i :
  registerBrowser now id tag cb !! k = Some i →
  (k = id ∧ i = {| lastSeen := now; tf := js_or tag (VStr "5") |}) ∨
  cb !! k = Some i.
Proof.
  unfold registerBrowser. case_bool_decide; [by right|].
  destruct (decide (id = k)) as [->|Hne].
  - rewrite lookup_insert_eq. intros [= <-]. by left.
  - rewrite lookup_insert_ne by done. by right.
Qed.

(** All of a touch: the sender's record, unless the id is [__proto__],
    and nothing else. *)
Lemma registerBrowser_effect now id tag (cb : gmap string info) :
  (id ≠ "__proto__" →
   registerBrowser now id tag cb !! id =
   Some {| lastSeen := now;
           tf := match tag with
                 | Some t => if truthy t then t else VStr "5"
                 | None => VStr "5"
                 end |}) ∧
  (id = "__proto__" → registerBrowser now id tag cb = cb) ∧
  (∀ k : string, k ≠ id → registerBrowser now id tag cb !! k = cb !! k).
Proof.
  split; [by apply registerBrowser_lookup|]. split.
  - by intros ->.
  - intros k Hk. by apply registerBrowser_other.
Qed.

Lemma given_Some (o : option string) :
  given o = true ↔ ∃ id, o = Some id ∧ id ≠ "".
Proof.
  destruct o as [id|]; simpl.
  - rewrite negb_true_iff, bool_decide_eq_false. split.
    + intros Hid. by exists id.
    + by intros (? & [= <-] & Hid).
  - split; [done | by intros (? & ? & _)].
Qed.

(** ** Invariants of the transition system *)

(** One goal per event, in the order of [event]. *)
Ltac event_cases e :=
  destruct e as [id tag|body|req|req| | | | |]; unfold run.

Lemma typed_initial : typed (syncState initial).
Proof. split; [left|exists 0]; reflexivity. Qed.

Lemma typed_set_leader id hb ss : id ≠ "" → typed (set_leader id hb ss).
Proof.
  intros Hid. split; autorewrite with election; [right|]; eauto.
Qed.

Lemma typed_refresh hb ss :
  typed ss → typed (<["leaderHeartbeat" := VNum hb]> ss).
Proof.
  intros [Hl _]. split.
  - by rewrite refresh_id.
  - exists hb. apply lookup_insert_eq.
Qed.

Lemma typed_clear ss : typed (clear_leader ss).
Proof.
  split; autorewrite with election; eauto.
Qed.

Lemma typed_merge rest ss : typed ss → typed (stateUpdates rest ∪ ss).
Proof.
  intros H. unfold typed. by autorewrite with election.
Qed.

(** No event stores anything but [null] or a non-empty string under
    [leaderId], nor anything but a number under [leaderHeartbeat]. *)
Lemma typed_run now e s :
  typed (syncState s) → typed (syncState (run now e s)).
Proof.
  intros Ht. event_cases e; simpl.
  - unfold get_sync_state. by destruct (given id).
  - apply typed_merge.
    destruct (given (su_leaderId body) && _); [by apply typed_refresh | done].
  - unfold claim_leader.
    destruct (given (cl_browserId req)) eqn:Hg; simpl; [|done].
    apply given_Some in Hg as (id & -> & Hid). simpl.
    destruct (truthy_opt (cl_force req)); simpl; [by apply typed_set_leader|].
    destruct (negb _ || _); simpl; [by apply typed_set_leader|].
    destruct (leader_is _ _); simpl; [by apply typed_refresh | done].
  - unfold heartbeat. destruct (given (hb_browserId req)); simpl; [|done].
    destruct (truthy_opt _ && _); [by apply typed_refresh | done].
  - done.
  - apply typed_initial.
  - done.
  - done.
  - rewrite sweep_syncState.
    destruct (syncState s !! "leaderId") as [[| | |l| |]|]; try done.
    destruct (connectedBrowsers s !! l) as [i|]; [|done].
    destruct (stale now i); [apply typed_clear | done].
Qed.

Lemma typed_reachable s : reachable s → typed (syncState s).
Proof.
  induction 1 as [|now e s _ IH]; [apply typed_initial | by apply typed_run].
Qed.

Lemma leader_has_record_initial : leader_has_record initial.
Proof. intros v Hv Ht. vm_compute in Hv. by simplify_eq. Qed.

Lemma leader_has_record_touch now id tag ss cb :
  leader_has_record {| syncState := ss; connectedBrowsers := cb |} →
  leader_has_record
    {| syncState := ss; connectedBrowsers := registerBrowser now id tag cb |}.
Proof.
  intros H v Hv Ht. destruct (H v Hv Ht) as (l & -> & Hl).
  exists l. split; [done|]. intros Hp. by apply registerBrowser_keeps, Hl.
Qed.

Lemma leader_has_record_set now id tag hb ss cb :
  leader_has_record
    {| syncState := set_leader id hb ss;
       connectedBrowsers := registerBrowser now id tag cb |}.
Proof.
  intros v Hv _. simpl in *. rewrite set_leader_id in Hv. simplify_eq.
  exists id. split; [done|]. intros Hp. rewrite registerBrowser_lookup by done.
  eauto.
Qed.

Lemma leader_has_record_ext s s' :
  syncState s' !! "leaderId" = syncState s !! "leaderId" →
  (∀ k, is_Some (connectedBrowsers s !! k) → is_Some (connectedBrowsers s' !! k)) →
  leader_has_record s → leader_has_record s'.
Proof.
  intros Hl Hcb H v Hv Ht. rewrite Hl in Hv.
  destruct (H v Hv Ht) as (l & -> & Hin). eauto.
Qed.

(** Every event keeps a record for a non-empty [leaderId] other than
    [__proto__]. *)
Lemma leader_has_record_run now e s :
  leader_has_record s → leader_has_record (run now e s).
Proof.
  intros H. event_cases e; simpl.
  - unfold get_sync_state. destruct (given id); [|done].
    destruct s. by apply leader_has_record_touch.
  - eapply leader_has_record_ext; [| |exact H]; simpl.
    + rewrite merge_leaderId.
      destruct (given (su_leaderId body) && _); [apply refresh_id | done].
    + intros k Hk. destruct (given (su_leaderId body)); [|done].
      by apply registerBrowser_keeps.
  - unfold claim_leader.
    destruct (given (cl_browserId req)) eqn:Hg; simpl; [|done].
    destruct (truthy_opt (cl_force req)); simpl; [apply leader_has_record_set|].
    destruct (negb _ || _); simpl; [apply leader_has_record_set|].
    eapply leader_has_record_ext; [| |exact H].
    + destruct (leader_is _ _); simpl; [apply refresh_id | done].
    + intros k Hk. destruct (leader_is _ _); simpl; by apply registerBrowser_keeps.
  - unfold heartbeat. destruct (given (hb_browserId req)); simpl; [|done].
    eapply leader_has_record_ext; [| |exact H]; simpl.
    + destruct (truthy_opt _ && _); [apply refresh_id | done].
    + intros k Hk. by apply registerBrowser_keeps.
  - done.
  - apply leader_has_record_initial.
  - done.
  - done.
  - intros v Hv Ht. rewrite sweep_syncState in Hv.
    destruct (syncState s !! "leaderId") as [w|] eqn:Hw.
    2:{ rewrite Hw in Hv. done. }
    destruct (truthy w) eqn:Htw.
    + destruct (H w Hw Htw) as (l & -> & Hrec).
      destruct (connectedBrowsers s !! l) as [i|] eqn:Hi.
      * destruct (stale now i) eqn:Hst.
        { rewrite clear_leader_id in Hv. by simplify_eq. }
        rewrite Hw in Hv. simplify_eq. exists l. split; [done|].
        intros _. rewrite sweep_lookup, Hi, Hst. eauto.
      * rewrite Hw in Hv. simplify_eq. exists l. split; [done|].
        intros Hp. destruct (Hrec Hp) as [i Hi']. congruence.
    + destruct w as [| | |l| |]; try (rewrite Hw in Hv; congruence).
      destruct (connectedBrowsers s !! l) as [i|]; [|rewrite Hw in Hv; congruence].
      destruct (stale now i).
      * rewrite clear_leader_id in Hv. by simplify_eq.
      * rewrite Hw in Hv. congruence.
Qed.

Lemma leader_has_record_reachable s : reachable s → leader_has_record s.
Proof.
  induction 1 as [|now e s _ IH];
    [apply leader_has_record_initial | by apply leader_has_record_run].
Qed.

(** ** POST /claim-leader *)

(** The handler on a request that carries a non-empty id, with the three
    granting tests side by side. *)
Lemma claim_leader_given now req s id :
  cl_browserId req = Some id → id ≠ "" →
  claim_leader now req s =
  let cb1 := registerBrowser now id (cl_tf req) (connectedBrowsers s) in
  let ts := or_now (cl_timestamp req) now in
  let granted ss' :=
    let s' := {| syncState := ss'; connectedBrowsers := cb1 |} in
    (s', ClaimGranted id (getBrowserStats now s')) in
  if truthy_opt (cl_force req)
     || negb (truthy_opt (syncState s !! "leaderId"))
     || timed_out now (syncState s)
  then granted (set_leader id ts (syncState s))
  else if leader_is (syncState s) id
  then granted (<["leaderHeartbeat" := VNum ts]> (syncState s))
  else
    let s' := {| syncState := syncState s; connectedBrowsers := cb1 |} in
    (s', ClaimDenied (syncState s !! "leaderId")
           ("Leader " +:+ leader_short (syncState s) +:+ " is active")
           (getBrowserStats now s')).
Proof.
  intros Hreq Hid. unfold claim_leader. rewrite Hreq. simpl.
  rewrite (bool_decide_eq_false_2 _ Hid). simpl.
  by destruct (truthy_opt (cl_force req)).
Qed.

Lemma timed_out_numeric now ss hb :
  ss !! "leaderHeartbeat" = Some (VNum hb) →
  timed_out now ss = true ↔ now - hb > leaderTimeout.
Proof.
  intros Hhb. unfold timed_out. rewrite Hhb. simpl.
  rewrite Z.gtb_ltb, Z.ltb_lt. lia.
Qed.

Lemma set_leader_same id hb (ss : gmap string value) :
  ss !! "leaderId" = Some (VStr id) →
  set_leader id hb ss = <["leaderHeartbeat" := VNum hb]> ss.
Proof. intros Hl. unfold set_leader. by rewrite (insert_id ss). Qed.

(** The outcome of a claim, with the stored heartbeat written as the
    handler computes it. *)
Lemma claim_leader_outcome now req s id hb :
  cl_browserId req = Some id → id ≠ "" →
  syncState s !! "leaderHeartbeat" = Some (VNum hb) →
  let s' := (claim_leader now req s).1 in
  let r := (claim_leader now req s).2 in
  let ts := or_now (cl_timestamp req) now in
  (success r = Some true ↔
     truthy_opt (cl_force req) = true ∨
     truthy_opt (syncState s !! "leaderId") = false ∨
     now - hb > leaderTimeout ∨
     syncState s !! "leaderId" = Some (VStr id)) ∧
  (success r = Some true →
     r = ClaimGranted id (getBrowserStats now s') ∧
     syncState s' !! "leaderId" = Some (VStr id) ∧
     syncState s' !! "leaderHeartbeat" = Some (VNum ts)) ∧
  (syncState s !! "leaderId" = Some (VStr id) →
     syncState s' = <["leaderHeartbeat" := VNum ts]> (syncState s)) ∧
  (success r ≠ Some true → syncState s' = syncState s).
Proof.
  intros Hreq Hid Hhb. simpl. rewrite (claim_leader_given _ _ _ _ Hreq Hid).
  pose proof (timed_out_numeric now _ _ Hhb) as Hto.
  pose proof (leader_is_spec (syncState s) id) as Hli.
  cbv zeta.
  destruct (truthy_opt (cl_force req)) eqn:Hf; simpl.
  { repeat split; try done; try apply set_leader_id; try apply set_leader_hb.
    - intros _. by left.
    - apply set_leader_same. }
  destruct (truthy_opt (syncState s !! "leaderId")) eqn:Hv; simpl.
  2:{ repeat split; try done; try apply set_leader_id; try apply set_leader_hb.
      - intros _. right. by left.
      - apply set_leader_same. }
  destruct (timed_out now (syncState s)) eqn:Ht; simpl.
  { repeat split; try done; try apply set_leader_id; try apply set_leader_hb.
    - intros _. right. right. left. by apply Hto.
    - apply set_leader_same. }
  destruct (leader_is (syncState s) id) eqn:Hl; simpl.
  { repeat split; try done; try (by simplify_map_eq).
    - intros _. do 3 right. by apply Hli.
    - rewrite refresh_id. by apply Hli. }
  repeat split; try done.
  - intros [?|[?|[Hgt|Heq]]]; try done.
    + apply Hto in Hgt. congruence.
    + apply Hli in Heq. congruence.
  - intros Heq. apply Hli in Heq. congruence.
Qed.

(** [timestamp || Date.now()], case by case. *)
Lemma or_now_cases ts now :
  (∀ t, ts = Some t → t ≠ 0 → or_now ts now = t) ∧
  (ts = None ∨ ts = Some 0 → or_now ts now = now).
Proof.
  split.
  - intros t -> Ht. simpl. by destruct (Z.eqb_spec t 0).
  - by intros [->| ->].
Qed.

(** C1.  A claim with a non-empty id is granted exactly when it is forced,
    or there is no leader, or the stored heartbeat is more than 8000 ms
    old, or the claimant is the leader already.  A granted claim answers
    with the claimant's id and leaves [leaderId] at that id and
    [leaderHeartbeat] at the request's timestamp when it has one other
    than 0, and at the clock reading when it has none or 0; for the leader
    itself no field but [leaderHeartbeat] changes; a claim that is not
    granted leaves [syncState] as it was. *)
Theorem claim_leader_granted_iff now req s id hb :
  cl_browserId req = Some id → id ≠ "" →
  syncState s !! "leaderHeartbeat" = Some (VNum hb) →
  let s' := (claim_leader now req s).1 in
  let r := (claim_leader now req s).2 in
  (success r = Some true ↔
     truthy_opt (cl_force req) = true ∨
     truthy_opt (syncState s !! "leaderId") = false ∨
     now - hb > 8000 ∨
     syncState s !! "leaderId" = Some (VStr id)) ∧
  (success r = Some true →
     r = ClaimGranted id (getBrowserStats now s') ∧
     syncState s' !! "leaderId" = Some (VStr id) ∧
     (∀ t, cl_timestamp req = Some t → t ≠ 0 →
        syncState s' !! "leaderHeartbeat" = Some (VNum t)) ∧
     (cl_timestamp req = None ∨ cl_timestamp req = Some 0 →
        syncState s' !! "leaderHeartbeat" = Some (VNum now))) ∧
  (syncState s !! "leaderId" = Some (VStr id) →
     ∀ k : string, k ≠ "leaderHeartbeat" →
       syncState s' !! k = syncState s !! k) ∧
  (success r ≠ Some true → syncState s' = syncState s).
Proof.
  intros Hreq Hid Hhb. cbv zeta.
  destruct (claim_leader_outcome now req s id hb Hreq Hid Hhb)
    as (Hiff & Hok & Hre & Hno).
  destruct (or_now_cases (cl_timestamp req) now) as [Hts Hnone].
  split; [exact Hiff|]. split; [|split; [|exact Hno]].
  - intros Hs. destruct (Hok Hs) as (Hr & Hl & Hh).
    split; [exact Hr|]. split; [exact Hl|]. split.
    + intros t Ht Hne. by rewrite Hh, (Hts t Ht Hne).
    + intros Hn. by rewrite Hh, (Hnone Hn).
  - intros Hl k Hk. rewrite (Hre Hl). by rewrite lookup_insert_ne.
Qed.

Lemma claim_leader_granted_iff_witness :
  success (claim_leader 9001 (claim_by "B" None) held_by_A).2 = Some true.
Proof.
  apply (claim_leader_granted_iff 9001 (claim_by "B" None) held_by_A "B" 1000);
    [reflexivity | done | reflexivity |].
  right. right. left. lia.
Defined.

(** X21.  A claim with a non-empty id that is turned down answers with
    the stored [leaderId] and the reason "Leader <last 8 characters> is
    active" and leaves [syncState] as it was.  For an id other than
    [__proto__] it has still written the claimant's record, with
    [lastSeen = now] and the tag sent or ['5']; for the id [__proto__] the
    registry is as before.  The other records are untouched either way. *)
Theorem claim_leader_denied now req s id :
  cl_browserId req = Some id → id ≠ "" →
  success (claim_leader now req s).2 = Some false →
  let s' := (claim_leader now req s).1 in
  (claim_leader now req s).2 =
    ClaimDenied (syncState s !! "leaderId")
      ("Leader " +:+ leader_short (syncState s) +:+ " is active")
      (getBrowserStats now s') ∧
  truthy_opt (cl_force req) = false ∧
  syncState s' = syncState s ∧
  (id ≠ "__proto__" →
   connectedBrowsers s' !! id =
     Some {| lastSeen := now;
             tf := match cl_tf req with
                   | Some t => if truthy t then t else VStr "5"
                   | None => VStr "5"
                   end |}) ∧
  (id = "__proto__" → connectedBrowsers s' = connectedBrowsers s) ∧
  (∀ k : string, k ≠ id → connectedBrowsers s' !! k = connectedBrowsers s !! k).
Proof.
  intros Hreq Hid. rewrite (claim_leader_given _ _ _ _ Hreq Hid). cbv zeta.
  destruct (truthy_opt (cl_force req)); simpl; [done|].
  destruct (negb _ || _); simpl; [done|].
  destruct (leader_is _ _); simpl; [done|].
  intros _. split; [done|]. split; [done|]. split; [done|].
  split; [by apply registerBrowser_lookup|]. split.
  - by intros ->.
  - intros k Hk. by apply registerBrowser_other.
Qed.

Lemma claim_leader_denied_witness :
  let r := claim_leader 9000 (claim_by "B" None) held_by_A in
  r.2 = ClaimDenied (Some (VStr "A")) "Leader A is active" (getBrowserStats 9000 r.1) ∧
  syncState r.1 = syncState held_by_A ∧
  connectedBrowsers r.1 !! "B" = Some {| lastSeen := 9000; tf := VStr "5" |}.
Proof.
  destruct (claim_leader_denied 9000 (claim_by "B" None) held_by_A "B")
    as (Hr & _ & Hs & Hb & _); [reflexivity | done | reflexivity |].
  split; [exact Hr | split; [exact Hs | by apply Hb]].
Defined.

(** C6.  The code at the failing input: with "A" leading since 1000, a
    claim by the browser [__proto__] at 9000 is turned down and the
    registry holds no record for the claimant afterwards: it is what it
    was before the claim. *)
Theorem denied_claimant_proto_has_no_record :
  let r := claim_leader 9000 (claim_by "__proto__" None) held_by_A in
  success r.2 = Some false ∧
  syncState r.1 = syncState held_by_A ∧
  connectedBrowsers r.1 !! "__proto__" = None ∧
  connectedBrowsers r.1 = connectedBrowsers held_by_A.
Proof. repeat split; reflexivity. Qed.

(** ** Zero timestamps *)

Lemma post_sync_state_heartbeat now body s :
  syncState (post_sync_state now body s).1 !! "leaderHeartbeat" =
  if given (su_leaderId body) && leader_is (syncState s) (default "" (su_leaderId body))
  then Some (VNum (or_now (su_leaderHeartbeat body) now))
  else syncState s !! "leaderHeartbeat".
Proof.
  simpl. rewrite merge_leaderHeartbeat.
  destruct (given _ && _); [apply lookup_insert_eq | done].
Qed.

Lemma post_sync_state_leaderId now body s :
  syncState (post_sync_state now body s).1 !! "leaderId" =
  syncState s !! "leaderId".
Proof.
  simpl. rewrite merge_leaderId.
  destruct (given _ && _); [apply refresh_id | done].
Qed.

(** C10.  A timestamp of 0 counts as none: a granted claim with
    [timestamp = 0] and a state post of the current leader with
    [leaderHeartbeat = 0] both store the server's clock reading. *)
Theorem zero_timestamp_is_now now s id :
  id ≠ "" →
  (∀ req, cl_browserId req = Some id → cl_timestamp req = Some 0 →
     success (claim_leader now req s).2 = Some true →
     syncState (claim_leader now req s).1 !! "leaderHeartbeat" = Some (VNum now)) ∧
  (∀ body, su_leaderId body = Some id → su_leaderHeartbeat body = Some 0 →
     syncState s !! "leaderId" = Some (VStr id) →
     syncState (post_sync_state now body s).1 !! "leaderHeartbeat" = Some (VNum now)).
Proof.
  intros Hid. split.
  - intros req Hreq Hts. rewrite (claim_leader_given _ _ _ _ Hreq Hid), Hts.
    cbv zeta. simpl.
    destruct (truthy_opt (cl_force req) || _ || _); simpl;
      [intros _; apply set_leader_hb|].
    destruct (leader_is _ _); simpl; [intros _; apply lookup_insert_eq | done].
  - intros body Hb Hts Hl. rewrite post_sync_state_heartbeat, Hb, Hts. simpl.
    rewrite (bool_decide_eq_false_2 _ Hid). simpl.
    apply leader_is_spec in Hl. by rewrite Hl.
Qed.

Lemma zero_timestamp_is_now_witness :
  syncState (claim_leader 9001 (claim_by "B" (Some 0)) held_by_A).1
    !! "leaderHeartbeat" = Some (VNum 9001) ∧
  syncState (post_sync_state 4000
      {| su_leaderId := Some "A"; su_leaderHeartbeat := Some 0; su_rest := ∅ |}
      held_by_A).1 !! "leaderHeartbeat" = Some (VNum 4000).
Proof.
  destruct (zero_timestamp_is_now 9001 held_by_A "B") as [Hc _]; [done|].
  destruct (zero_timestamp_is_now 4000 held_by_A "A") as [_ Hp]; [done|].
  split.
  - apply Hc; reflexivity.
  - apply Hp; reflexivity.
Defined.

(** ** The heartbeat over time *)

Lemma vacant_zero_initial : vacant_zero (syncState initial).
Proof. intros _. reflexivity. Qed.

Lemma vacant_set_leader id hb ss : id ≠ "" → vacant (set_leader id hb ss) = false.
Proof.
  intros Hid. unfold vacant. rewrite set_leader_id. simpl.
  by rewrite (bool_decide_eq_false_2 _ Hid).
Qed.

Lemma vacant_refresh hb ss :
  vacant (<["leaderHeartbeat" := VNum hb]> ss) = vacant ss.
Proof. unfold vacant. by rewrite refresh_id. Qed.

Lemma leader_is_not_vacant ss id :
  id ≠ "" → leader_is ss id = true → vacant ss = false.
Proof.
  intros Hid Hl%leader_is_spec. unfold vacant. rewrite Hl. simpl.
  by rewrite (bool_decide_eq_false_2 _ Hid).
Qed.

Lemma vacant_zero_refresh hb ss id :
  id ≠ "" → leader_is ss id = true →
  vacant_zero (<["leaderHeartbeat" := VNum hb]> ss).
Proof.
  intros Hid Hl Hv. rewrite vacant_refresh in Hv.
  by rewrite (leader_is_not_vacant _ _ Hid Hl) in Hv.
Qed.

Lemma vacant_zero_post now body s :
  vacant_zero (syncState s) →
  vacant_zero (syncState (post_sync_state now body s).1).
Proof.
  intros H Hv.
  assert (vacant (syncState s) = true) as Hv'.
  { unfold vacant in *. by rewrite post_sync_state_leaderId in Hv. }
  rewrite post_sync_state_heartbeat.
  destruct (given (su_leaderId body)) eqn:Hg; simpl; [|exact (H Hv')].
  apply given_Some in Hg as (id & Hb & Hid). rewrite Hb. simpl.
  destruct (leader_is (syncState s) id) eqn:Hl; [|exact (H Hv')].
  by rewrite (leader_is_not_vacant _ _ Hid Hl) in Hv'.
Qed.

(** Whenever there is no leader, the heartbeat is 0. *)
Lemma vacant_zero_run now e s :
  vacant_zero (syncState s) → vacant_zero (syncState (run now e s)).
Proof.
  intros H. event_cases e; simpl.
  - unfold get_sync_state. by destruct (given id).
  - by apply vacant_zero_post.
  - unfold claim_leader.
    destruct (given (cl_browserId req)) eqn:Hg; simpl; [|done].
    apply given_Some in Hg as (id & -> & Hid). simpl.
    destruct (truthy_opt (cl_force req)); simpl.
    { intros Hv. by rewrite vacant_set_leader in Hv. }
    destruct (negb _ || _); simpl.
    { intros Hv. by rewrite vacant_set_leader in Hv. }
    destruct (leader_is (syncState s) id) eqn:Hl; simpl; [|done].
    by apply (vacant_zero_refresh _ _ id).
  - unfold heartbeat. destruct (given (hb_browserId req)) eqn:Hg; simpl; [|done].
    apply given_Some in Hg as (id & -> & Hid). simpl.
    destruct (truthy_opt (hb_isLeader req)); simpl; [|done].
    destruct (leader_is (syncState s) id) eqn:Hl; [|done].
    by apply (vacant_zero_refresh _ _ id).
  - done.
  - apply vacant_zero_initial.
  - done.
  - done.
  - rewrite sweep_syncState.
    destruct (syncState s !! "leaderId") as [[| | |l| |]|]; try done.
    destruct (connectedBrowsers s !! l) as [i|]; [|done].
    destruct (stale now i); [|done]. intros _. apply clear_leader_hb.
Qed.

Lemma vacant_zero_reachable s : reachable s → vacant_zero (syncState s).
Proof.
  induction 1 as [|now e s _ IH]; [apply vacant_zero_initial | by apply vacant_zero_run].
Qed.

(** A request names the leader's id exactly when the handlers' test
    [leaderId && leaderId === syncState.leaderId] passes. *)
Lemma sent_by_leader ss a (o : option string) :
  a ≠ "" → ss !! "leaderId" = Some (VStr a) →
  given o && leader_is ss (default "" o) = bool_decide (o = Some a).
Proof.
  intros Ha Hl. unfold leader_is. rewrite Hl. destruct o as [x|]; simpl; [|done].
  destruct (decide (a = x)) as [<-|Hne].
  - by rewrite (bool_decide_eq_false_2 _ Ha), !bool_decide_eq_true_2.
  - rewrite (bool_decide_eq_false_2 (a = x)) by done.
    rewrite (bool_decide_eq_false_2 (Some x = Some a)) by congruence.
    apply andb_false_r.
Qed.

(** The stored heartbeat after an event that leaves the leader [a] in
    place: the value the event writes when it is one of the leader's
    renewals, the old one otherwise. *)
Lemma heartbeat_written now e s a h :
  a ≠ "" →
  syncState s !! "leaderId" = Some (VStr a) →
  syncState s !! "leaderHeartbeat" = Some (VNum h) →
  syncState (run now e s) !! "leaderId" = Some (VStr a) →
  syncState (run now e s) !! "leaderHeartbeat" =
  Some (VNum (if renews e a then or_now (supplied_timestamp e) now else h)).
Proof.
  intros Ha Hl Hh. pose proof (sent_by_leader (syncState s) a) as Hsent.
  event_cases e; cbn [handle fst renews supplied_timestamp].
  - unfold get_sync_state. by destruct (given id).
  - intros _. rewrite post_sync_state_heartbeat, Hsent by done.
    by case_bool_decide.
  - unfold claim_leader. destruct (given (cl_browserId req)) eqn:Hg; cbn.
    2:{ intros _. rewrite bool_decide_eq_false_2; [done|].
        intros Heq. rewrite Heq in Hg. simpl in Hg.
        by rewrite (bool_decide_eq_false_2 _ Ha) in Hg. }
    apply given_Some in Hg as (id & Hreq & Hid). rewrite Hreq. cbn.
    assert (∀ hb', set_leader id hb' (syncState s) !! "leaderId" = Some (VStr a) →
              set_leader id hb' (syncState s) !! "leaderHeartbeat" =
              Some (VNum (if bool_decide (Some id = Some a) then hb' else h)))
      as Hset.
    { intros hb'. rewrite set_leader_id, set_leader_hb. intros [= ->].
      by rewrite bool_decide_eq_true_2. }
    destruct (truthy_opt (cl_force req)); cbn; [apply Hset|].
    destruct (negb _ || _); cbn; [apply Hset|].
    specialize (Hsent (Some id) Ha Hl). cbn in Hsent.
    rewrite (bool_decide_eq_false_2 _ Hid) in Hsent. cbn in Hsent.
    rewrite Hsent. case_bool_decide; cbn; intros _; [apply lookup_insert_eq | done].
  - unfold heartbeat. destruct (given (hb_browserId req)) eqn:Hg; cbn.
    2:{ intros _. rewrite bool_decide_eq_false_2; [done|].
        intros Heq. rewrite Heq in Hg. simpl in Hg.
        by rewrite (bool_decide_eq_false_2 _ Ha) in Hg. }
    apply given_Some in Hg as (id & Hreq & Hid). rewrite Hreq. cbn.
    specialize (Hsent (Some id) Ha Hl). cbn in Hsent.
    rewrite (bool_decide_eq_false_2 _ Hid) in Hsent. cbn in Hsent.
    rewrite Hsent. intros _.
    destruct (truthy_opt (hb_isLeader req)); case_bool_decide; cbn;
      (apply lookup_insert_eq || done).
  - done.
  - done.
  - done.
  - done.
  - cbn. rewrite sweep_syncState, Hl.
    destruct (connectedBrowsers s !! a) as [i|]; [|done].
    destruct (stale now i); [|done]. by rewrite clear_leader_id.
Qed.

(** C2, as the code has it.  While the leader stays the same, an event
    leaves [leaderHeartbeat] as it is unless it is one of the leader's
    renewals: its claim, its state post, or its heartbeat with [isLeader]
    set.  A renewal overwrites [leaderHeartbeat], without looking at the
    stored value, with the request's timestamp when that is not 0 and with
    the clock reading otherwise.  So the heartbeat does not decrease
    across the event exactly when the event is no renewal or the value it
    writes is not below the stored one.  A state without a leader has
    [leaderHeartbeat = 0]. *)
Theorem heartbeat_across_event now e s h :
  reachable s →
  syncState s !! "leaderHeartbeat" = Some (VNum h) →
  let s' := run now e s in
  (∀ a, syncState s !! "leaderId" = Some (VStr a) →
        syncState s' !! "leaderId" = Some (VStr a) →
     ∃ h', syncState s' !! "leaderHeartbeat" = Some (VNum h') ∧
       (renews e a = false → h' = h) ∧
       (renews e a = true →
          (∀ t, supplied_timestamp e = Some t → t ≠ 0 → h' = t) ∧
          (supplied_timestamp e = None ∨ supplied_timestamp e = Some 0 →
           h' = now)) ∧
       (h ≤ h' ↔
          renews e a = false ∨
          (∃ t, supplied_timestamp e = Some t ∧ t ≠ 0 ∧ h ≤ t) ∨
          ((supplied_timestamp e = None ∨ supplied_timestamp e = Some 0) ∧
           h ≤ now))) ∧
  (vacant (syncState s) = true → h = 0) ∧
  (vacant (syncState s') = true →
     syncState s' !! "leaderHeartbeat" = Some (VNum 0)).
Proof.
  intros Hr Hh. cbv zeta. split; [|split].
  - intros a Hl Hl'.
    assert (a ≠ "") as Ha.
    { destruct (typed_reachable s Hr) as [[Hn|(id & Hid & Hs)] _]; congruence. }
    rewrite (heartbeat_written now e s a h Ha Hl Hh Hl').
    destruct (or_now_cases (supplied_timestamp e) now) as [Hts Hnone].
    eexists. split; [reflexivity|].
    destruct (renews e a).
    + split; [done|]. split.
      { split; [intros t Ht Hne; by apply Hts | exact Hnone]. }
      split.
      * intros Hle. right.
        destruct (supplied_timestamp e) as [t|] eqn:Hsup.
        { destruct (decide (t = 0)) as [->|Hne].
          - right. split; [by right|]. by rewrite Hnone in Hle by (by right).
          - left. exists t. rewrite (Hts t eq_refl Hne) in Hle. done. }
        right. split; [by left|]. by rewrite Hnone in Hle by (by left).
      * intros [?|[(t & Ht & Hne & Hle)|[Hn Hle]]]; [done| |].
        { by rewrite (Hts t Ht Hne). }
        by rewrite (Hnone Hn).
    + split; [done|]. split; [done|]. split; [by left | lia].
  - intros Hv. pose proof (vacant_zero_reachable s Hr Hv) as Hz. congruence.
  - apply vacant_zero_reachable. by constructor.
Qed.

Lemma heartbeat_across_event_witness :
  ∃ h', syncState (run 4000 (ClaimLeader (claim_by "A" (Some 7000))) first_claim)
          !! "leaderHeartbeat" = Some (VNum h') ∧ h' = 7000.
Proof.
  destruct (heartbeat_across_event 4000 (ClaimLeader (claim_by "A" (Some 7000)))
              first_claim 5000) as (Hsame & _ & _).
  - apply reachable_run, reachable_initial.
  - reflexivity.
  - destruct (Hsame "A") as (h' & Hh' & _ & Hw & _); [reflexivity | reflexivity |].
    exists h'. split; [exact Hh'|].
    destruct Hw as [Hts _]; [reflexivity|]. by apply Hts.
Defined.

(** C2 as stated fails: a leader that claims again with a smaller
    timestamp keeps [leaderId] and lowers [leaderHeartbeat]. *)
Lemma reclaim_lowers_heartbeat :
  reachable first_claim ∧
  syncState first_claim !! "leaderId" = Some (VStr "A") ∧
  syncState first_claim !! "leaderHeartbeat" = Some (VNum 5000) ∧
  syncState second_claim !! "leaderId" = Some (VStr "A") ∧
  syncState second_claim !! "leaderHeartbeat" = Some (VNum 1000) ∧
  ¬ (5000 ≤ 1000).
Proof.
  split; [apply reachable_run, reachable_initial|].
  repeat split; try reflexivity. lia.
Qed.

(** ** Eviction *)

(** X20.  One tick of the sweep keeps a record exactly when
    [now - lastSeen > 30000] is false and removes it otherwise; when the
    leader's record is removed, [leaderId] becomes [null] and
    [leaderHeartbeat] 0, and otherwise [syncState] is untouched; and in
    every state the server can reach, before or after any event or tick,
    a non-empty [leaderId] other than [__proto__] is the id of a record of
    the registry. *)
Theorem sweep_evicts_stale_and_clears_leader now s :
  (∀ k : string,
     connectedBrowsers (sweep now s) !! k =
     match connectedBrowsers s !! k with
     | Some i => if bool_decide (now - lastSeen i > 30000) then None else Some i
     | None => None
     end) ∧
  (∀ (l : string) (i : info),
     syncState s !! "leaderId" = Some (VStr l) →
     connectedBrowsers s !! l = Some i →
     (now - lastSeen i > 30000 →
        syncState (sweep now s) !! "leaderId" = Some VNull ∧
        syncState (sweep now s) !! "leaderHeartbeat" = Some (VNum 0)) ∧
     (now - lastSeen i ≤ 30000 → syncState (sweep now s) = syncState s)) ∧
  (reachable s →
     ∀ l, syncState s !! "leaderId" = Some (VStr l) → l ≠ "__proto__" →
          is_Some (connectedBrowsers s !! l)).
Proof.
  assert (∀ i, stale now i = bool_decide (now - lastSeen i > 30000)) as Hst.
  { intros i. unfold stale, BROWSER_TIMEOUT.
    destruct (Z.gtb_spec (now - lastSeen i) 30000).
    - by rewrite bool_decide_eq_true_2 by lia.
    - by rewrite bool_decide_eq_false_2 by lia. }
  split; [|split].
  - intros k. rewrite sweep_lookup.
    destruct (connectedBrowsers s !! k) as [i|]; [|done]. by rewrite Hst.
  - intros l i Hl Hi. rewrite sweep_syncState, Hl, Hi, Hst. split.
    + intros Hgt. rewrite bool_decide_eq_true_2 by done.
      split; [apply clear_leader_id | apply clear_leader_hb].
    + intros Hle. by rewrite bool_decide_eq_false_2 by lia.
  - intros Hr l Hl Hp.
    destruct (typed_reachable s Hr) as [[Hn|(id & Hid & Hs)] _]; [congruence|].
    rewrite Hl in Hs. simplify_eq.
    destruct (leader_has_record_reachable s Hr (VStr id) Hl) as (l' & [= <-] & Hrec).
    { simpl. by rewrite (bool_decide_eq_false_2 _ Hid). }
    by apply Hrec.
Qed.

Lemma sweep_evicts_stale_and_clears_leader_witness :
  connectedBrowsers (sweep 31001 held_by_A) !! "A" = None ∧
  syncState (sweep 31001 held_by_A) !! "leaderId" = Some VNull ∧
  syncState (sweep 31001 held_by_A) !! "leaderHeartbeat" = Some (VNum 0) ∧
  is_Some (connectedBrowsers held_by_A !! "A").
Proof.
  destruct (sweep_evicts_stale_and_clears_leader 31001 held_by_A)
    as (Hcb & Hld & Hreg).
  split; [exact (Hcb "A")|].
  destruct (Hld "A" {| lastSeen := 1000; tf := VStr "5" |}) as [Hclr _];
    [reflexivity | reflexivity |].
  destruct Hclr as [Hid Hhb]; [simpl; lia|].
  split; [exact Hid|]. split; [exact Hhb|].
  apply Hreg; [apply reachable_run, reachable_initial | reflexivity | done].
Defined.

(** C3.  The code at the failing input: after a claim by the browser
    [__proto__] on the fresh server, [leaderId] is that id and the registry
    is empty, so a non-empty [leaderId] has no record; and as the sweep
    only looks at the records it finds, no later tick clears that
    leadership. *)
Theorem proto_leader_has_no_record :
  reachable held_by_proto ∧
  syncState held_by_proto !! "leaderId" = Some (VStr "__proto__") ∧
  connectedBrowsers held_by_proto = ∅ ∧
  ¬ leader_registered held_by_proto ∧
  ∀ now, sweep now held_by_proto = held_by_proto.
Proof.
  split; [apply reachable_run, reachable_initial|].
  split; [reflexivity|]. split; [reflexivity|]. split.
  - intros H. destruct (H (VStr "__proto__")) as (id & [= <-] & [i Hi]);
      [reflexivity | reflexivity |].
    vm_compute in Hi. discriminate.
  - intros now. reflexivity.
Qed.

(** ** POST /sync-state *)

(** C4.  After a state post every key of the payload other than
    [leaderId] and [leaderHeartbeat] holds the payload's value, whether or
    not [syncState] had the key, and every other such key holds what it
    held; [leaderId] is what it was whatever the payload holds under either
    election key, and [leaderHeartbeat] is what the heartbeat test of
    lines 146-148 left, which does not look at the merged fields. *)
Theorem post_sync_state_merge now body s :
  let s' := (post_sync_state now body s).1 in
  (∀ k : string, k ≠ "leaderId" → k ≠ "leaderHeartbeat" →
     syncState s' !! k =
     match su_rest body !! k with
     | Some v => Some v
     | None => syncState s !! k
     end) ∧
  syncState s' !! "leaderId" = syncState s !! "leaderId" ∧
  syncState s' !! "leaderHeartbeat" =
    (if given (su_leaderId body)
        && leader_is (syncState s) (default "" (su_leaderId body))
     then Some (VNum (or_now (su_leaderHeartbeat body) now))
     else syncState s !! "leaderHeartbeat") ∧
  (∀ rest',
     let t := (post_sync_state now
                 {| su_leaderId := su_leaderId body;
                    su_leaderHeartbeat := su_leaderHeartbeat body;
                    su_rest := rest' |} s).1 in
     syncState t !! "leaderId" = syncState s' !! "leaderId" ∧
     syncState t !! "leaderHeartbeat" = syncState s' !! "leaderHeartbeat").
Proof.
  cbv zeta. split; [|split; [|split]].
  - intros k Hk1 Hk2. simpl. rewrite merge_other by done.
    destruct (su_rest body !! k); [done|].
    destruct (given _ && _); [by rewrite lookup_insert_ne | done].
  - apply post_sync_state_leaderId.
  - apply post_sync_state_heartbeat.
  - intros rest'. by rewrite !post_sync_state_leaderId, !post_sync_state_heartbeat.
Qed.

Lemma post_sync_state_merge_witness :
  let s' := (post_sync_state 2000 payload_with_election_keys held_by_A).1 in
  syncState s' !! "currentIndex" = Some (VNum 3) ∧
  syncState s' !! "symbol" = Some (VStr "XYZ") ∧
  syncState s' !! "rotateInterval" = Some (VNum 7) ∧
  syncState s' !! "leaderId" = Some (VStr "A") ∧
  syncState s' !! "leaderHeartbeat" = Some (VNum 1000).
Proof.
  destruct (post_sync_state_merge 2000 payload_with_election_keys held_by_A)
    as (Hm & Hid & Hhb & _).
  split; [exact (Hm "currentIndex" ltac:(done) ltac:(done))|].
  split; [exact (Hm "symbol" ltac:(done) ltac:(done))|].
  split; [exact (Hm "rotateInterval" ltac:(done) ltac:(done))|].
  split; [exact Hid | exact Hhb].
Defined.

(** ** Requests without an id *)

(** C5, as the code has it.  POST /claim-leader and POST /heartbeat answer
    a missing or empty [browserId] with status 400 and [success: false] and
    leave the whole state as it was.  POST /sync-state has no such check:
    without a [leaderId] it skips the registration and the heartbeat
    (lines 141 and 146), so the registry and both election fields stay as
    they were, but it still merges the payload and answers
    [success: true]. *)
Theorem missing_id now s :
  (∀ req, given (cl_browserId req) = false →
     claim_leader now req s = (s, BadRequest "browserId required")) ∧
  (∀ req, given (hb_browserId req) = false →
     heartbeat now req s = (s, BadRequest "browserId required")) ∧
  http_status (BadRequest "browserId required") = 400 ∧
  success (BadRequest "browserId required") = Some false ∧
  (∀ body, given (su_leaderId body) = false →
     let s' := (post_sync_state now body s).1 in
     let r := (post_sync_state now body s).2 in
     http_status r = 200 ∧ success r = Some true ∧
     connectedBrowsers s' = connectedBrowsers s ∧
     syncState s' !! "leaderId" = syncState s !! "leaderId" ∧
     syncState s' !! "leaderHeartbeat" = syncState s !! "leaderHeartbeat" ∧
     syncState s' = stateUpdates (su_rest body) ∪ syncState s).
Proof.
  repeat split.
  - intros req Hg. unfold claim_leader. by rewrite Hg.
  - intros req Hg. unfold heartbeat. by rewrite Hg.
  - simpl. by rewrite H.
  - rewrite post_sync_state_leaderId. done.
  - rewrite post_sync_state_heartbeat, H. done.
  - simpl. by rewrite H.
Qed.

Lemma missing_id_witness :
  claim_leader 1000 (ClaimRequest (Some "") None None None) initial
    = (initial, BadRequest "browserId required") ∧
  heartbeat 1000 (HeartbeatRequest None None None) initial
    = (initial, BadRequest "browserId required") ∧
  connectedBrowsers (post_sync_state 1000 anonymous_update initial).1 = ∅.
Proof.
  destruct (missing_id 1000 initial) as (Hc & Hh & _ & _ & Hp).
  split; [by apply Hc|]. split; [by apply Hh|].
  by apply (Hp anonymous_update).
Defined.

(** C5 as stated fails for POST /sync-state: a post without [leaderId] is
    answered with status 200 and [success: true], and it changes the shared
    state. *)
Lemma post_without_id_is_accepted :
  given (su_leaderId anonymous_update) = false ∧
  http_status (post_sync_state 1000 anonymous_update initial).2 = 200 ∧
  success (post_sync_state 1000 anonymous_update initial).2 = Some true ∧
  syncState initial !! "currentIndex" = Some (VNum 0) ∧
  syncState (post_sync_state 1000 anonymous_update initial).1 !! "currentIndex"
    = Some (VNum 3).
Proof. repeat split; reflexivity. Qed.

(** ** The presence snapshot *)

(** [Math.round(d / 1000) > 10] holds from 10.5 seconds on. *)
Lemma round_seconds_gt_10 d : (round_seconds d >? 10) = true ↔ 10500 ≤ d.
Proof.
  unfold round_seconds. rewrite Z.gtb_ltb, Z.ltb_lt.
  Z.to_euclidean_division_equations. lia.
Qed.

Lemma status_of_not_offline isLeader secondsAgo :
  status_of isLeader secondsAgo ≠ offline.
Proof.
  unfold status_of. destruct isLeader; [done|].
  destruct (Z.gtb_spec secondsAgo 10); [done|].
  destruct (Z.gtb_spec secondsAgo 20); [lia | done].
Qed.

Lemma browser_of_status now ss id i :
  b_status (browser_of now ss (id, i)) =
  if leader_is ss id then leader
  else if bool_decide (10500 ≤ now - lastSeen i) then warning else online.
Proof.
  simpl. unfold status_of. destruct (leader_is ss id); [done|].
  destruct (round_seconds (now - lastSeen i) >? 10) eqn:Hr.
  - apply round_seconds_gt_10 in Hr. by rewrite bool_decide_eq_true_2.
  - rewrite bool_decide_eq_false_2; [|by rewrite <- round_seconds_gt_10, Hr].
    destruct (Z.gtb_spec (round_seconds (now - lastSeen i)) 20); [|done].
    assert ((round_seconds (now - lastSeen i) >? 10) = true); [|congruence].
    rewrite Z.gtb_ltb, Z.ltb_lt. lia.
Qed.

Lemma filter_not_offline (l : list browser) :
  (∀ b, b ∈ l → b_status b ≠ offline) →
  filter (λ b, b_status b ≠ offline) l = l.
Proof.
  induction l as [|b l IH]; intros H; [done|].
  rewrite filter_cons_True by (apply H; by left).
  f_equal. apply IH. intros b' Hb'. apply H. by right.
Qed.

Lemma elem_of_browsersList now s b :
  b ∈ browsersList (getBrowserStats now s) ↔
  ∃ id i, connectedBrowsers s !! id = Some i ∧
          b = browser_of now (syncState s) (id, i).
Proof.
  simpl. rewrite list_elem_of_In, in_map_iff. split.
  - intros ([id i] & <- & Hin). exists id, i. split; [|done].
    by apply elem_of_map_to_list, list_elem_of_In.
  - intros (id & i & Hi & ->). exists (id, i). split; [done|].
    by apply list_elem_of_In, elem_of_map_to_list.
Qed.

(** C7, as the code has it.  The snapshot has one element per record.  Its
    status is [leader] when the record's id is [leaderId]; otherwise
    [warning] when the age in seconds rounded to the nearest whole number
    is above 10, which is from [now - lastSeen = 10500] ms on, and [online]
    below that.  No element is [offline], and [browsersOnline] equals
    [totalBrowsers], the number of records. *)
Theorem snapshot_status now s :
  let st := getBrowserStats now s in
  (∀ b, b ∈ browsersList st ↔
        ∃ id i, connectedBrowsers s !! id = Some i ∧
                b = browser_of now (syncState s) (id, i)) ∧
  (∀ id i,
     let b := browser_of now (syncState s) (id, i) in
     b_lastSeen b = round_seconds (now - lastSeen i) ∧
     (syncState s !! "leaderId" = Some (VStr id) → b_status b = leader) ∧
     (syncState s !! "leaderId" ≠ Some (VStr id) →
        (10500 ≤ now - lastSeen i → b_status b = warning) ∧
        (now - lastSeen i < 10500 → b_status b = online))) ∧
  (∀ b, b ∈ browsersList st → b_status b ≠ offline) ∧
  browsersOnline st = totalBrowsers st ∧
  totalBrowsers st = size (connectedBrowsers s).
Proof.
  cbv zeta.
  assert (∀ b, b ∈ browsersList (getBrowserStats now s) → b_status b ≠ offline)
    as Hoff.
  { intros b (id & i & _ & ->)%elem_of_browsersList. apply status_of_not_offline. }
  split; [apply elem_of_browsersList|]. split; [|split; [exact Hoff|split]].
  - intros id i. split; [done|]. rewrite browser_of_status.
    pose proof (leader_is_spec (syncState s) id) as Hl. split.
    + intros Heq. apply Hl in Heq. by rewrite Heq.
    + intros Hne. destruct (leader_is (syncState s) id); [by destruct Hne; apply Hl|].
      split; intros Hd.
      * by rewrite bool_decide_eq_true_2.
      * by rewrite bool_decide_eq_false_2 by lia.
  - simpl. f_equal. apply filter_not_offline, Hoff.
  - simpl. by rewrite length_map, length_map_to_list.
Qed.

Lemma snapshot_status_witness :
  b_status (browser_of 10500 (syncState seen_at_0)
              ("b", {| lastSeen := 0; tf := VStr "5" |})) = warning ∧
  b_status (browser_of 10499 (syncState seen_at_0)
              ("b", {| lastSeen := 0; tf := VStr "5" |})) = online.
Proof.
  destruct (snapshot_status 10500 seen_at_0) as (_ & Hw & _).
  destruct (snapshot_status 10499 seen_at_0) as (_ & Ho & _).
  split.
  - apply (Hw "b" {| lastSeen := 0; tf := VStr "5" |}); [done | simpl; lia].
  - apply (Ho "b" {| lastSeen := 0; tf := VStr "5" |}); [done | simpl; lia].
Defined.

(** C7 as stated fails between 10 and 10.5 seconds: a record that is not
    the leader's and was seen 10200 ms ago is older than 10 seconds and is
    [online]. *)
Lemma online_after_10200_ms :
  connectedBrowsers seen_at_0 !! "b" = Some {| lastSeen := 0; tf := VStr "5" |} ∧
  syncState seen_at_0 !! "leaderId" = Some VNull ∧
  10200 - 0 > 10 * 1000 ∧
  map b_status (browsersList (getBrowserStats 10200 seen_at_0)) = [online].
Proof. repeat split; try reflexivity. Qed.

(** ** Touching the registry *)

(** C8, as the code has it.  For an id that is an ordinary property name
    (any but [__proto__]), [registerBrowser] never fails and replaces the
    whole record of the id: [lastSeen] is the clock reading and [tf] is the
    given tag when that is truthy and the sentinel ['5'] when the tag is
    missing or falsy, whatever tag the record held before.  The other
    records are untouched, and touching twice with the same arguments is
    touching once. *)
Theorem registerBrowser_overwrites now id tag (cb : gmap string info) :
  id ≠ "__proto__" →
  registerBrowser now id tag cb !! id =
    Some {| lastSeen := now;
            tf := match tag with
                  | Some t => if truthy t then t else VStr "5"
                  | None => VStr "5"
                  end |} ∧
  (∀ k : string, k ≠ id → registerBrowser now id tag cb !! k = cb !! k) ∧
  registerBrowser now id tag (registerBrowser now id tag cb)
    = registerBrowser now id tag cb.
Proof.
  intros Hid. split; [by apply registerBrowser_lookup|]. split.
  - intros k Hk. by apply registerBrowser_other.
  - apply registerBrowser_idem.
Qed.

Lemma registerBrowser_overwrites_witness :
  registerBrowser 2000 "A" None (connectedBrowsers held_by_A) !! "A"
    = Some {| lastSeen := 2000; tf := VStr "5" |}.
Proof.
  by apply (registerBrowser_overwrites 2000 "A" None (connectedBrowsers held_by_A)).
Defined.

(** C8 as stated fails: a touch without a tag does not keep the tag of an
    earlier touch. *)
Lemma touch_without_tag_resets_tag :
  registerBrowser 1000 "a" (Some (VStr "15")) ∅ !! "a"
    = Some {| lastSeen := 1000; tf := VStr "15" |} ∧
  registerBrowser 2000 "a" None (registerBrowser 1000 "a" (Some (VStr "15")) ∅) !! "a"
    = Some {| lastSeen := 2000; tf := VStr "5" |}.
Proof. split; reflexivity. Qed.

(** ** POST /reset *)

Lemma truthy_js_or tag d : truthy d = true → truthy (js_or tag d) = true.
Proof.
  intros Hd. destruct tag as [t|]; simpl; [|done].
  by destruct (truthy t) eqn:Ht.
Qed.

(** C9, as the code has it.  From any state, reset leaves [leaderId] at
    [null], [leaderHeartbeat] at 0, the shared state at its defaults and the
    registry empty.  A following GET /sync-state without a [browserId]
    answers with the default state and no browser; with a [browserId] that
    is an ordinary property name (any but [__proto__]) it registers that
    browser first and answers with the default state and that one
    browser. *)
Theorem reset_then_get_state now s :
  (reset s).1 = {| syncState := default_syncState; connectedBrowsers := ∅ |} ∧
  default_syncState !! "leaderId" = Some VNull ∧
  default_syncState !! "leaderHeartbeat" = Some (VNum 0) ∧
  (∀ id tag, given id = false →
     get_sync_state now id tag (reset s).1 =
     (initial,
      StateView default_syncState
        {| totalBrowsers := 0; browsersOnline := 0; browsersList := [] |})) ∧
  (∀ id tag, id ≠ "" → id ≠ "__proto__" →
     (get_sync_state now (Some id) tag (reset s).1).2 =
     StateView default_syncState
       {| totalBrowsers := 1; browsersOnline := 1;
          browsersList :=
            [ {| b_id := slice_last 8 id; b_browserId := id;
                 b_isLeader := false; b_status := online; b_lastSeen := 0;
                 b_tf := match tag with
                         | Some t => if truthy t then t else VStr "5"
                         | None => VStr "5"
                         end |} ] |}).
Proof.
  split; [done|]. split; [done|]. split; [done|]. split.
  - intros id tag Hg. unfold get_sync_state. by rewrite Hg.
  - intros id tag Hid Hp. unfold get_sync_state. simpl.
    rewrite (bool_decide_eq_false_2 _ Hid). simpl.
    unfold getBrowserStats, registerBrowser. simpl.
    rewrite (bool_decide_eq_false_2 _ Hp).
    rewrite insert_empty, map_to_list_singleton. simpl.
    rewrite filter_cons_True by (simpl; rewrite Z.sub_diag; done).
    change (match tag with
            | Some t => if truthy t then t else VStr "5"
            | None => VStr "5"
            end) with (js_or tag (VStr "5")).
    rewrite Z.sub_diag, truthy_js_or by done. done.
Qed.

Lemma reset_then_get_state_witness :
  get_sync_state 9000 None None (reset held_by_A).1 =
  (initial,
   StateView default_syncState
     {| totalBrowsers := 0; browsersOnline := 0; browsersList := [] |}) ∧
  stats_of (get_sync_state 9000 (Some "B") None (reset held_by_A).1).2 =
  Some {| totalBrowsers := 1; browsersOnline := 1;
          browsersList :=
            [ {| b_id := "B"; b_browserId := "B"; b_isLeader := false;
                 b_status := online; b_lastSeen := 0; b_tf := VStr "5" |} ] |}.
Proof.
  destruct (reset_then_get_state 9000 held_by_A) as (_ & _ & _ & Hnone & Hid).
  split; [by apply Hnone|]. by rewrite (Hid "B" None).
Defined.

(** C9 as stated fails for a GET /sync-state that carries a [browserId]:
    the answer after a reset lists one registered browser. *)
Lemma get_state_after_reset_registers_caller :
  stats_of (get_sync_state 9000 (Some "B") None (reset held_by_A).1).2 =
  Some {| totalBrowsers := 1; browsersOnline := 1;
          browsersList :=
            [ {| b_id := "B"; b_browserId := "B"; b_isLeader := false;
                 b_status := online; b_lastSeen := 0; b_tf := VStr "5" |} ] |}.
Proof. reflexivity. Qed.

(** * Further properties of the handlers *)

(** ** POST /heartbeat *)

(** X1.  A heartbeat with a non-empty id answers [success: true].  It
    writes the sender's record, with [lastSeen = now] and the tag sent or
    ['5'], unless the id is [__proto__], for which the registry stays as it
    is; the other records are untouched.  It never changes [leaderId]; it
    sets [leaderHeartbeat] to the clock reading when [isLeader] is truthy
    and the sender is the leader, and leaves the whole of [syncState] alone
    otherwise; no field other than [leaderHeartbeat] ever changes. *)
Theorem heartbeat_effect now req s id :
  hb_browserId req = Some id → id ≠ "" →
  let s' := (heartbeat now req s).1 in
  success (heartbeat now req s).2 = Some true ∧
  ((id ≠ "__proto__" →
    connectedBrowsers s' !! id =
    Some {| lastSeen := now;
            tf := match hb_tf req with
                  | Some t => if truthy t then t else VStr "5"
                  | None => VStr "5"
                  end |}) ∧
   (id = "__proto__" → connectedBrowsers s' = connectedBrowsers s) ∧
   (∀ k : string, k ≠ id →
      connectedBrowsers s' !! k = connectedBrowsers s !! k)) ∧
  syncState s' !! "leaderId" = syncState s !! "leaderId" ∧
  (truthy_opt (hb_isLeader req) = true →
   syncState s !! "leaderId" = Some (VStr id) →
   syncState s' !! "leaderHeartbeat" = Some (VNum now)) ∧
  (truthy_opt (hb_isLeader req) = false ∨
   syncState s !! "leaderId" ≠ Some (VStr id) →
   syncState s' = syncState s) ∧
  (∀ k : string, k ≠ "leaderHeartbeat" → syncState s' !! k = syncState s !! k).
Proof.
  intros Hreq Hid. unfold heartbeat. rewrite Hreq. simpl.
  rewrite (bool_decide_eq_false_2 _ Hid). simpl.
  pose proof (leader_is_spec (syncState s) id) as Hl.
  split; [done|]. split; [apply registerBrowser_effect|].
  destruct (truthy_opt (hb_isLeader req)); simpl;
    [destruct (leader_is (syncState s) id) eqn:Hli|].
  - split; [apply refresh_id|]. split; [intros _ _; apply lookup_insert_eq|].
    split; [intros [?|Hne]; [done | destruct Hne; by apply Hl]|].
    intros k Hk. by rewrite lookup_insert_ne.
  - split; [done|]. split; [intros _ Heq; apply Hl in Heq; congruence|].
    split; done.
  - split; [done|]. split; [done|]. split; done.
Qed.

Lemma heartbeat_effect_witness :
  syncState (heartbeat 4000 (HeartbeatRequest (Some "A") None (Some (VBool true)))
               held_by_A).1 !! "leaderHeartbeat" = Some (VNum 4000).
Proof.
  destruct (heartbeat_effect 4000
              (HeartbeatRequest (Some "A") None (Some (VBool true))) held_by_A "A")
    as (_ & _ & _ & Hhb & _); [reflexivity | done |].
  apply Hhb; reflexivity.
Defined.

(** X2.  A leader's heartbeat with [isLeader] set at [t1] keeps every other
    browser's unforced claim out until [t1 + 8000]: such a claim at [t2]
    with [t2 - t1 <= 8000] is turned down and the leader stays.  A heartbeat
    without [isLeader] does not renew: once the stored heartbeat is older
    than 8000 ms the other browser's claim is granted, however recent the
    leader's plain heartbeat was. *)
Theorem heartbeat_blocks_failover t1 t2 s a b hreq creq :
  a ≠ "" → b ≠ "" → a ≠ b →
  syncState s !! "leaderId" = Some (VStr a) →
  hb_browserId hreq = Some a →
  cl_browserId creq = Some b → truthy_opt (cl_force creq) = false →
  let s1 := (heartbeat t1 hreq s).1 in
  (truthy_opt (hb_isLeader hreq) = true → t2 - t1 ≤ 8000 →
     success (claim_leader t2 creq s1).2 = Some false ∧
     syncState (claim_leader t2 creq s1).1 !! "leaderId" = Some (VStr a)) ∧
  (truthy_opt (hb_isLeader hreq) = false →
     ∀ h, syncState s !! "leaderHeartbeat" = Some (VNum h) → t2 - h > 8000 →
     success (claim_leader t2 creq s1).2 = Some true ∧
     syncState (claim_leader t2 creq s1).1 !! "leaderId" = Some (VStr b)).
Proof.
  intros Ha Hb Hab Hl Hh Hc Hf. cbv zeta.
  assert (syncState (heartbeat t1 hreq s).1 !! "leaderId" = Some (VStr a)) as Hl1.
  { unfold heartbeat. rewrite Hh. simpl. rewrite (bool_decide_eq_false_2 _ Ha).
    simpl. destruct (_ && _); [by rewrite refresh_id | done]. }
  assert (leader_is (syncState (heartbeat t1 hreq s).1) b = false) as Hnb.
  { unfold leader_is. rewrite Hl1. apply bool_decide_eq_false_2. congruence. }
  rewrite (claim_leader_given _ _ _ _ Hc Hb). cbv zeta.
  rewrite Hf, Hl1, Hnb. simpl. rewrite (bool_decide_eq_false_2 _ Ha). simpl.
  split.
  - intros Hi Ht.
    assert (timed_out t2 (syncState (heartbeat t1 hreq s).1) = false) as ->.
    { apply not_true_is_false. rewrite (timed_out_numeric _ _ t1).
      - unfold leaderTimeout. lia.
      - unfold heartbeat. rewrite Hh. simpl.
        rewrite (bool_decide_eq_false_2 _ Ha), Hi. simpl.
        apply leader_is_spec in Hl. rewrite Hl. apply lookup_insert_eq. }
    simpl. by rewrite Hl1.
  - intros Hi h Hhb Ht.
    assert (timed_out t2 (syncState (heartbeat t1 hreq s).1) = true) as ->.
    { rewrite (timed_out_numeric _ _ h); [done|].
      unfold heartbeat. rewrite Hh. simpl.
      by rewrite (bool_decide_eq_false_2 _ Ha), Hi. }
    simpl. split; [done | apply set_leader_id].
Qed.

Lemma heartbeat_blocks_failover_witness :
  success (claim_leader 9500 (claim_by "B" None)
             (heartbeat 4000 (HeartbeatRequest (Some "A") None (Some (VBool true)))
                held_by_A).1).2 = Some false ∧
  success (claim_leader 9500 (claim_by "B" None)
             (heartbeat 4000 (HeartbeatRequest (Some "A") None None)
                held_by_A).1).2 = Some true.
Proof.
  split.
  - apply (heartbeat_blocks_failover 4000 9500 held_by_A "A" "B"
             (HeartbeatRequest (Some "A") None (Some (VBool true)))
             (claim_by "B" None)); try done; lia.
  - apply (heartbeat_blocks_failover 4000 9500 held_by_A "A" "B"
             (HeartbeatRequest (Some "A") None None)
             (claim_by "B" None)) with (h := 1000); try done; lia.
Defined.

(** ** What the events keep and what they never do *)

(** X3.  In every state the server can reach, [leaderId] is [null] or a
    non-empty string and [leaderHeartbeat] is a number, so the subtraction
    of line 192 never yields NaN. *)
Theorem election_fields_typed s :
  reachable s →
  (syncState s !! "leaderId" = Some VNull ∨
   ∃ id, id ≠ "" ∧ syncState s !! "leaderId" = Some (VStr id)) ∧
  ∃ hb, syncState s !! "leaderHeartbeat" = Some (VNum hb) ∧
        ∀ now, timed_out now (syncState s) = bool_decide (now - hb > 8000).
Proof.
  intros Hr. destruct (typed_reachable s Hr) as [Hid [hb Hhb]].
  split; [exact Hid|]. exists hb. split; [exact Hhb|].
  intros now. unfold timed_out, leaderTimeout. rewrite Hhb. simpl.
  destruct (Z.gtb_spec (now - hb) 8000).
  - by rewrite bool_decide_eq_true_2 by lia.
  - by rewrite bool_decide_eq_false_2 by lia.
Qed.

Lemma election_fields_typed_witness :
  ∃ hb, syncState second_claim !! "leaderHeartbeat" = Some (VNum hb) ∧
        ∀ now, timed_out now (syncState second_claim)
               = bool_decide (now - hb > 8000).
Proof.
  apply (election_fields_typed second_claim).
  apply reachable_run, reachable_run, reachable_initial.
Defined.

Lemma is_Some_insert {A} (m : gmap string A) (i k : string) (x : A) :
  is_Some (m !! k) → is_Some (<[i := x]> m !! k).
Proof.
  intros Hk. destruct (decide (i = k)) as [->|Hne].
  - rewrite lookup_insert_eq. eauto.
  - by rewrite lookup_insert_ne.
Qed.

Lemma has_default_keys_run now e s :
  has_default_keys (syncState s) → has_default_keys (syncState (run now e s)).
Proof.
  intros H. event_cases e; simpl.
  - unfold get_sync_state. by destruct (given id).
  - intros k Hk. apply lookup_union_is_Some. right.
    destruct (given _ && _); [apply is_Some_insert|]; by apply H.
  - unfold claim_leader. destruct (given (cl_browserId req)); simpl; [|done].
    destruct (truthy_opt (cl_force req)); simpl.
    { intros k Hk. unfold set_leader. by apply is_Some_insert, is_Some_insert, H. }
    destruct (negb _ || _); simpl.
    { intros k Hk. unfold set_leader. by apply is_Some_insert, is_Some_insert, H. }
    destruct (leader_is _ _); simpl; [|done].
    intros k Hk. by apply is_Some_insert, H.
  - unfold heartbeat. destruct (given (hb_browserId req)); simpl; [|done].
    destruct (truthy_opt _ && _); [|done].
    intros k Hk. by apply is_Some_insert, H.
  - done.
  - by intros k Hk.
  - done.
  - done.
  - rewrite sweep_syncState.
    destruct (syncState s !! "leaderId") as [[| | |l| |]|]; try done.
    destruct (connectedBrowsers s !! l) as [i|]; [|done].
    destruct (stale now i); [|done].
    intros k Hk. unfold clear_leader. by apply is_Some_insert, is_Some_insert, H.
Qed.

(** X4.  No event removes a field of the default shape from [syncState]:
    in every reachable state all nine default keys are present, and
    GET /sync-state answers with each of them. *)
Theorem default_keys_persist s (k : string) :
  reachable s →
  k ∈ ["leaderId"; "leaderHeartbeat"; "currentIndex"; "rotateInterval";
       "fetchInterval"; "colLInterval"; "selectedFilters"; "filteredData";
       "alertSettings"] →
  is_Some (syncState s !! k) ∧
  ∀ now id tag, ∃ st stats,
    (get_sync_state now id tag s).2 = StateView st stats ∧
    st !! k = syncState s !! k.
Proof.
  intros Hr Hk.
  assert (has_default_keys (syncState s)) as Hd.
  { clear Hk. induction Hr as [|now e s _ IH]; [by intros k' Hk'|].
    by apply has_default_keys_run. }
  assert (is_Some (default_syncState !! k) ∧
          k ≠ "totalBrowsers" ∧ k ≠ "browsersOnline" ∧ k ≠ "browsersList")
    as (Hdk & H1 & H2 & H3).
  { repeat (apply elem_of_cons in Hk as [->|Hk]; [by (split; [eexists|])|]).
    by apply elem_of_nil in Hk. }
  split; [by apply Hd|].
  intros now id tag. unfold get_sync_state. simpl.
  eexists _, _. split; [done|]. unfold state_view.
  rewrite !lookup_delete_ne by done. by destruct (given id).
Qed.

Lemma default_keys_persist_witness :
  is_Some (syncState (run 2000 (PostState payload_with_election_keys) held_by_A)
             !! "selectedFilters").
Proof.
  apply (default_keys_persist
           (run 2000 (PostState payload_with_election_keys) held_by_A)
           "selectedFilters").
  - apply reachable_run, reachable_run, reachable_initial.
  - set_solver.
Defined.

(** The registry after a request. *)
Lemma run_registry now e s :
  keeps_registry e = true →
  connectedBrowsers (run now e s) =
  if given (caller e)
  then registerBrowser now (default "" (caller e)) (caller_tag e)
         (connectedBrowsers s)
  else connectedBrowsers s.
Proof.
  intros He. event_cases e; simpl; try done.
  - unfold get_sync_state. by destruct (given id).
  - unfold claim_leader. destruct (given (cl_browserId req)); simpl; [|done].
    destruct (truthy_opt (cl_force req)); simpl; [done|].
    destruct (negb _ || _); simpl; [done|].
    by destruct (leader_is _ _).
  - unfold heartbeat. by destruct (given (hb_browserId req)).
Qed.

(** X5.  A request other than POST /reset changes at most the sender's
    record.  When it carries a non-empty id other than [__proto__] (and,
    for a claim or a heartbeat, is not refused for a missing id), the
    sender's record is written with [lastSeen = now] and the tag sent or
    ['5']; when it carries no id, an empty one or [__proto__], the registry
    stays as it is.  Every other record is as before and no record is
    removed: only the timer and POST /reset remove records. *)
Theorem request_touches_only_caller now e s :
  keeps_registry e = true →
  let cb' := connectedBrowsers (run now e s) in
  (∀ id, caller e = Some id → id ≠ "" → id ≠ "__proto__" →
     cb' !! id =
     Some {| lastSeen := now;
             tf := match caller_tag e with
                   | Some t => if truthy t then t else VStr "5"
                   | None => VStr "5"
                   end |}) ∧
  (caller e = None ∨ caller e = Some "" ∨ caller e = Some "__proto__" →
     cb' = connectedBrowsers s) ∧
  (∀ k : string, is_Some (connectedBrowsers s !! k) → is_Some (cb' !! k)) ∧
  (∀ k : string, caller e ≠ Some k → cb' !! k = connectedBrowsers s !! k).
Proof.
  intros He. cbv zeta. pose proof (run_registry now e s He) as Heq.
  rewrite Heq. split; [|split; [|split]].
  - intros id Hc Hid Hp. rewrite Hc. simpl.
    rewrite (bool_decide_eq_false_2 _ Hid). simpl.
    by apply registerBrowser_lookup.
  - intros [->|[->| ->]]; done.
  - intros k Hk. destruct (given (caller e)); [|done].
    by apply registerBrowser_keeps.
  - intros k Hk. destruct (given (caller e)) eqn:Hg; [|done].
    apply given_Some in Hg as (id & Hid & _). rewrite Hid in *. simpl.
    apply registerBrowser_other. congruence.
Qed.

Lemma request_touches_only_caller_witness :
  connectedBrowsers (run 9000 (ClaimLeader (claim_by "B" None)) held_by_A) !! "B"
  = Some {| lastSeen := 9000; tf := VStr "5" |}.
Proof.
  by apply (request_touches_only_caller 9000 (ClaimLeader (claim_by "B" None))
              held_by_A).
Defined.

(** X6.  Leadership moves only through POST /claim-leader, the timer and
    POST /reset.  Every other event leaves [leaderId] as it is; it passes
    from one browser to another only by that other browser's claim, forced
    or made after the stored heartbeat is more than 8000 ms old; and it is
    dropped only by the timer or a reset. *)
Theorem leadership_moves_only_by_claim now e s a :
  a ≠ "" → syncState s !! "leaderId" = Some (VStr a) →
  let l' := syncState (run now e s) !! "leaderId" in
  (l' = Some (VStr a) ∨ l' = Some VNull ∨
   ∃ b, b ≠ "" ∧ b ≠ a ∧ l' = Some (VStr b)) ∧
  (∀ b, l' = Some (VStr b) → b ≠ a →
     ∃ req, e = ClaimLeader req ∧ cl_browserId req = Some b ∧
            (truthy_opt (cl_force req) = true
             ∨ timed_out now (syncState s) = true)) ∧
  (l' = Some VNull → e = Reset ∨ e = Sweep).
Proof.
  intros Ha Hl. cbv zeta.
  event_cases e; simpl.
  - unfold get_sync_state. destruct (given id); simpl; rewrite Hl;
      (split; [by left|split; [congruence|done]]).
  - rewrite merge_leaderId.
    assert ((if given (su_leaderId body)
                && leader_is (syncState s) (default "" (su_leaderId body))
             then <["leaderHeartbeat" :=
                      VNum (or_now (su_leaderHeartbeat body) now)]> (syncState s)
             else syncState s) !! "leaderId" = Some (VStr a)) as ->.
    { destruct (_ && _); [by rewrite refresh_id | done]. }
    split; [by left|split; [congruence|done]].
  - unfold claim_leader.
    destruct (given (cl_browserId req)) eqn:Hg; simpl.
    2:{ rewrite Hl. split; [by left|split; [congruence|done]]. }
    apply given_Some in Hg as (b & Hb & Hbne). rewrite Hb. simpl.
    assert (truthy_opt (syncState s !! "leaderId") = true) as Htr.
    { rewrite Hl. simpl. by rewrite (bool_decide_eq_false_2 _ Ha). }
    rewrite Htr. simpl.
    destruct (truthy_opt (cl_force req)) eqn:Hf; simpl.
    { rewrite set_leader_id. split; [|split; [|done]].
      - destruct (decide (b = a)) as [->|Hne]; [by left|].
        right. right. by exists b.
      - intros b' [= <-] Hne. exists req. by repeat split; [|left]. }
    destruct (timed_out now (syncState s)) eqn:Ht; simpl.
    { rewrite set_leader_id. split; [|split; [|done]].
      - destruct (decide (b = a)) as [->|Hne]; [by left|].
        right. right. by exists b.
      - intros b' [= <-] Hne. exists req. by repeat split; [|right]. }
    destruct (leader_is (syncState s) b); simpl; rewrite ?refresh_id, Hl;
      (split; [by left|split; [congruence|done]]).
  - unfold heartbeat. destruct (given (hb_browserId req)); simpl.
    2:{ rewrite Hl. split; [by left|split; [congruence|done]]. }
    destruct (truthy_opt _ && _); rewrite ?refresh_id, Hl;
      (split; [by left|split; [congruence|done]]).
  - rewrite Hl. split; [by left|split; [congruence|done]].
  - split; [right; by left|split; [done|by left]].
  - rewrite Hl. split; [by left|split; [congruence|done]].
  - rewrite Hl. split; [by left|split; [congruence|done]].
  - rewrite sweep_syncState, Hl.
    destruct (connectedBrowsers s !! a) as [i|].
    2:{ rewrite Hl. split; [by left|split; [congruence|done]]. }
    destruct (stale now i).
    + rewrite clear_leader_id. split; [right; by left|split; [done|by right]].
    + rewrite Hl. split; [by left|split; [congruence|done]].
Qed.

Lemma leadership_moves_only_by_claim_witness :
  ∃ req, ClaimLeader (claim_by "B" None) = ClaimLeader req ∧
         cl_browserId req = Some "B" ∧
         (truthy_opt (cl_force req) = true
          ∨ timed_out 9001 (syncState held_by_A) = true).
Proof.
  destruct (leadership_moves_only_by_claim 9001
              (ClaimLeader (claim_by "B" None)) held_by_A "A")
    as (_ & Hmove & _); [done | reflexivity |].
  apply (Hmove "B"); [reflexivity | done].
Defined.

(** ** More on the presence snapshot *)

Lemma browsersList_ids now s :
  map b_browserId (browsersList (getBrowserStats now s))
  = map fst (map_to_list (connectedBrowsers s)).
Proof.
  simpl. rewrite map_map. apply map_ext. by intros [k i].
Qed.

(** X7.  The snapshot lists every registered browser once: the
    [browserId]s of [browsersList] are pairwise different and are exactly
    the keys of the registry. *)
Theorem snapshot_ids_unique now s :
  NoDup (map b_browserId (browsersList (getBrowserStats now s))) ∧
  ∀ id : string,
    id ∈ map b_browserId (browsersList (getBrowserStats now s)) ↔
    is_Some (connectedBrowsers s !! id).
Proof.
  rewrite browsersList_ids. split.
  - apply (NoDup_fst_map_to_list (connectedBrowsers s)).
  - intros id. rewrite list_elem_of_In, in_map_iff. split.
    + intros ([k i] & <- & Hin). exists i.
      by apply elem_of_map_to_list, list_elem_of_In.
    + intros [i Hi]. exists (id, i). split; [done|].
      by apply list_elem_of_In, elem_of_map_to_list.
Qed.

Lemma status_leader_iff isLeader secondsAgo :
  status_of isLeader secondsAgo = leader ↔ isLeader = true.
Proof.
  unfold status_of. destruct isLeader; [done|].
  destruct (secondsAgo >? 10); [done|]. by destruct (secondsAgo >? 20).
Qed.

(** X8.  The snapshot never shows two leaders: an element has status
    [leader] exactly when its [isLeader] flag is set, which is exactly when
    its id is [leaderId], and two elements with status [leader] are the
    same element.  In a reachable state with a leader other than
    [__proto__], the leader's element is in the list. *)
Theorem snapshot_single_leader now s :
  let st := getBrowserStats now s in
  (∀ b, b ∈ browsersList st →
     (b_status b = leader ↔ b_isLeader b = true) ∧
     (b_isLeader b = true ↔
      syncState s !! "leaderId" = Some (VStr (b_browserId b)))) ∧
  (∀ b1 b2, b1 ∈ browsersList st → b2 ∈ browsersList st →
     b_status b1 = leader → b_status b2 = leader → b1 = b2) ∧
  (reachable s →
   ∀ l, syncState s !! "leaderId" = Some (VStr l) → l ≠ "__proto__" →
     ∃ b, b ∈ browsersList st ∧ b_browserId b = l ∧ b_status b = leader).
Proof.
  cbv zeta.
  assert (∀ b, b ∈ browsersList (getBrowserStats now s) →
     (b_status b = leader ↔ b_isLeader b = true) ∧
     (b_isLeader b = true ↔
      syncState s !! "leaderId" = Some (VStr (b_browserId b)))) as Hflag.
  { intros b (id & i & _ & ->)%elem_of_browsersList. simpl.
    split; [apply status_leader_iff | apply leader_is_spec]. }
  split; [exact Hflag|]. split.
  - intros b1 b2 Hb1 Hb2 Hs1 Hs2.
    apply Hflag in Hs1; [|done]. apply Hflag in Hs1; [|done].
    apply Hflag in Hs2; [|done]. apply Hflag in Hs2; [|done].
    apply elem_of_browsersList in Hb1 as (id1 & i1 & Hi1 & ->).
    apply elem_of_browsersList in Hb2 as (id2 & i2 & Hi2 & ->).
    simpl in *. rewrite Hs1 in Hs2. simplify_eq. done.
  - intros Hr l Hl Hp.
    destruct (typed_reachable s Hr) as [[Hnull|(id & Hid & Hs)] _]; [congruence|].
    rewrite Hl in Hs. simplify_eq.
    destruct (leader_has_record_reachable s Hr (VStr id) Hl)
      as (id' & [= <-] & Hrec).
    { simpl. by rewrite (bool_decide_eq_false_2 _ Hid). }
    destruct (Hrec Hp) as [i Hi].
    exists (browser_of now (syncState s) (id, i)). split; [|split; [done|]].
    + apply elem_of_browsersList. by exists id, i.
    + simpl. apply status_leader_iff. by apply leader_is_spec.
Qed.

Lemma snapshot_single_leader_witness :
  ∃ b, b ∈ browsersList (getBrowserStats 9000 held_by_A) ∧
       b_browserId b = "A" ∧ b_status b = leader.
Proof.
  destruct (snapshot_single_leader 9000 held_by_A) as (_ & _ & Hex).
  apply Hex; [apply reachable_run, reachable_initial | reflexivity | done].
Defined.

Lemma tags_truthy_run now e s :
  tags_truthy (connectedBrowsers s) → tags_truthy (connectedBrowsers (run now e s)).
Proof.
  intros H. destruct (keeps_registry e) eqn:He.
  - rewrite run_registry by done. destruct (given (caller e)); [|done].
    intros k i [[_ ->]|Hk]%registerBrowser_inv.
    + simpl. by apply truthy_js_or.
    + by eapply H.
  - destruct e; try done; unfold run; simpl.
    intros k i. rewrite sweep_lookup.
    destruct (connectedBrowsers s !! k) as [j|] eqn:Hj; [|done].
    destruct (stale now j); [done|]. intros [= <-]. by eapply H.
Qed.

(** The registry never holds a record under the key [__proto__]. *)
Lemma no_proto_record s :
  reachable s → connectedBrowsers s !! "__proto__" = None.
Proof.
  induction 1 as [|now e s _ IH]; [done|].
  destruct (keeps_registry e) eqn:He.
  - rewrite run_registry by done. destruct (given (caller e)); [|done].
    unfold registerBrowser. case_bool_decide; [done|].
    by rewrite lookup_insert_ne.
  - destruct e; try done; unfold run; simpl.
    by rewrite sweep_lookup, IH.
Qed.

(** X9.  Every record the server can hold has a truthy tag, because
    [registerBrowser] stores [tf || '5'] and nothing else writes records.
    So the [|| '5'] of line 84 never applies: the snapshot shows each
    record's stored tag. *)
Theorem registry_tags_truthy now s :
  reachable s →
  tags_truthy (connectedBrowsers s) ∧
  ∀ (id : string) (i : info),
    connectedBrowsers s !! id = Some i →
    b_tf (browser_of now (syncState s) (id, i)) = tf i.
Proof.
  intros Hr.
  assert (tags_truthy (connectedBrowsers s)) as Ht.
  { induction Hr as [|now' e s _ IH]; [done | by apply tags_truthy_run]. }
  split; [exact Ht|]. intros id i Hi. simpl. by rewrite (Ht id i Hi).
Qed.

Lemma registry_tags_truthy_witness :
  tags_truthy (connectedBrowsers held_by_A).
Proof.
  apply (registry_tags_truthy 0 held_by_A), reachable_run, reachable_initial.
Defined.

(** ** More on the sweep *)

Lemma server_eq (s s' : server) :
  syncState s = syncState s' → connectedBrowsers s = connectedBrowsers s' → s = s'.
Proof. destruct s, s'. simpl. congruence. Qed.

(** A tick that finds no stale record changes nothing. *)
Lemma sweep_all_fresh now s :
  (∀ k i, connectedBrowsers s !! k = Some i → stale now i = false) →
  sweep now s = s.
Proof.
  intros Hfresh. apply server_eq.
  - rewrite sweep_syncState.
    destruct (syncState s !! "leaderId") as [[| | |l| |]|]; try done.
    destruct (connectedBrowsers s !! l) as [i|] eqn:Hi; [|done].
    by rewrite (Hfresh l i Hi).
  - apply map_eq. intros k. rewrite sweep_lookup.
    destruct (connectedBrowsers s !! k) as [i|] eqn:Hi; [|done].
    by rewrite (Hfresh k i Hi).
Qed.

Lemma sweep_leaves_fresh now s k i :
  connectedBrowsers (sweep now s) !! k = Some i → stale now i = false.
Proof.
  rewrite sweep_lookup. destruct (connectedBrowsers s !! k) as [j|]; [|done].
  destruct (stale now j) eqn:Hj; [done|]. by intros [= <-].
Qed.

(** X10.  After a tick at [now] every remaining record has
    [now - lastSeen <= 30000]; a second tick at the same clock reading
    changes nothing, and a tick on a registry without stale records leaves
    the whole state as it is. *)
Theorem sweep_idempotent now s :
  (∀ k i, connectedBrowsers (sweep now s) !! k = Some i →
          now - lastSeen i ≤ 30000) ∧
  sweep now (sweep now s) = sweep now s ∧
  ((∀ k i, connectedBrowsers s !! k = Some i → now - lastSeen i ≤ 30000) →
   sweep now s = s).
Proof.
  assert (∀ i, stale now i = false ↔ now - lastSeen i ≤ 30000) as Hst.
  { intros i. unfold stale, BROWSER_TIMEOUT.
    destruct (Z.gtb_spec (now - lastSeen i) 30000); split; (done || lia). }
  split; [|split].
  - intros k i Hi. by eapply Hst, sweep_leaves_fresh.
  - apply sweep_all_fresh. intros k i. apply sweep_leaves_fresh.
  - intros Hfresh. apply sweep_all_fresh. intros k i Hi. by eapply Hst, Hfresh.
Qed.

Lemma sweep_idempotent_witness : sweep 9000 held_by_A = held_by_A.
Proof.
  apply (sweep_idempotent 9000 held_by_A).
  intros k i Hi.
  change (connectedBrowsers held_by_A)
    with (<["A" := {| lastSeen := 1000; tf := VStr "5" |}]> (∅ : gmap string info))
    in Hi.
  apply lookup_insert_Some in Hi as [[_ <-]|[_ Hi]]; [simpl; lia|].
  by rewrite lookup_empty in Hi.
Defined.

(** X11.  The result of the sweep loop does not depend on the order in
    which [Object.entries] hands over the records: the loop over any
    arrangement of the registry's entries ends in the same state. *)
Theorem sweep_order_irrelevant now l s :
  l ≡ₚ map_to_list (connectedBrowsers s) →
  sweep_loop now l s = sweep now s.
Proof. intros Hp. unfold sweep. by apply sweep_loop_Permutation. Qed.

Lemma sweep_order_irrelevant_witness :
  let s := run 9000 (ClaimLeader (claim_by "B" None)) held_by_A in
  sweep_loop 31001 (reverse (map_to_list (connectedBrowsers s))) s = sweep 31001 s.
Proof.
  apply sweep_order_irrelevant, reverse_Permutation.
Defined.

(** ** The counter of the sweep *)

Lemma sweep_count_state now l s c :
  (sweep_count now l s c).1 = sweep_loop now l s.
Proof.
  revert s c. induction l as [|e l IH]; intros s c; simpl; [done|]. apply IH.
Qed.

Lemma sweep_count_cleaned now l s c :
  (sweep_count now l s c).2 =
  (c + length (filter (λ e, stale now e.2 = true) l))%nat.
Proof.
  revert s c. induction l as [|e l IH]; intros s c; simpl; [lia|].
  rewrite IH. destruct (stale now e.2) eqn:He.
  - rewrite filter_cons_True by done. simpl. lia.
  - rewrite filter_cons_False by congruence. done.
Qed.

(** Each stale entry of a duplicate-free snapshot removes one record. *)
Lemma sweep_loop_size now l s :
  NoDup l.*1 →
  (∀ k i, (k, i) ∈ l → is_Some (connectedBrowsers s !! k)) →
  size (connectedBrowsers s) =
  (size (connectedBrowsers (sweep_loop now l s))
   + length (filter (λ e, stale now e.2 = true) l))%nat.
Proof.
  revert s. induction l as [|[k i] l IH]; intros s Hnd Hin; [simpl; lia|].
  rewrite fmap_cons in Hnd. apply NoDup_cons in Hnd as [Hk Hnd].
  cbn [sweep_loop].
  assert (∀ k' i', (k', i') ∈ l →
            is_Some (connectedBrowsers (sweep_entry now (k, i) s) !! k')) as Hin'.
  { intros k' i' Hl. rewrite sweep_entry_browsers. cbn [fst snd].
    assert (is_Some (connectedBrowsers s !! k')) by (apply (Hin k' i'); by right).
    destruct (stale now i); [|done]. rewrite lookup_delete_ne; [done|].
    intros ->. apply Hk. apply list_elem_of_fmap. by exists (k', i'). }
  pose proof (IH (sweep_entry now (k, i) s) Hnd Hin') as Hrest.
  rewrite sweep_entry_browsers in Hrest. cbn [fst snd] in Hrest.
  destruct (stale now i) eqn:Hi.
  - rewrite filter_cons_True by done. cbn [length].
    rewrite Nat.add_succ_r, <- Hrest.
    rewrite map_size_delete_Some by (eapply Hin; by left).
    destruct (Hin k i) as [j Hj]; [by left|].
    assert (size (connectedBrowsers s) ≠ 0%nat); [|lia].
    by eapply map_size_ne_0_lookup_2.
  - rewrite filter_cons_False by (simpl; congruence). done.
Qed.

(** X12.  The timer callback ends in the state of the sweep loop, and its
    log line is right: it is printed exactly when at least one record was
    removed, [cleaned] is the number of records removed and [Active] the
    number left; when nothing is printed the state is unchanged. *)
Theorem sweep_tick_log now s :
  (sweep_tick now s).1 = sweep now s ∧
  match (sweep_tick now s).2 with
  | Some (cleaned, active) =>
      (0 < cleaned)%nat ∧
      active = size (connectedBrowsers (sweep now s)) ∧
      size (connectedBrowsers s) = (active + cleaned)%nat
  | None => sweep now s = s
  end.
Proof.
  unfold sweep_tick.
  pose proof (sweep_count_state now (map_to_list (connectedBrowsers s)) s 0) as Hs.
  pose proof (sweep_count_cleaned now (map_to_list (connectedBrowsers s)) s 0) as Hc.
  destruct (sweep_count now (map_to_list (connectedBrowsers s)) s 0) as [s' c].
  simpl in *. subst s'. split; [done|].
  destruct (Nat.ltb_spec 0 c) as [Hpos|Hzero].
  - split; [done|]. split; [done|]. rewrite Hc.
    apply sweep_loop_size; [apply NoDup_fst_map_to_list|].
    intros k i Hin%elem_of_map_to_list. eauto.
  - apply sweep_all_fresh. intros k i Hi.
    destruct (stale now i) eqn:Hst; [|done].
    assert (filter (λ e : string * info, stale now e.2 = true)
              (map_to_list (connectedBrowsers s)) = []) as Hnil.
    { apply nil_length_inv. lia. }
    destruct (filter_nil_not_elem_of _ _ (k, i) Hnil Hst).
    by apply elem_of_map_to_list.
Qed.

(** ** Composition of requests *)

Lemma leader_is_merge rest ss id :
  leader_is (stateUpdates rest ∪ ss) id = leader_is ss id.
Proof. unfold leader_is. by rewrite merge_leaderId. Qed.

(** X13.  Sending the same state post twice at the same clock reading is
    the same as sending it once: the merge, the heartbeat refresh and the
    registration are all idempotent. *)
Theorem post_sync_state_idempotent now body s :
  (post_sync_state now body (post_sync_state now body s).1).1
  = (post_sync_state now body s).1.
Proof.
  apply server_eq; simpl.
  - rewrite leader_is_merge.
    destruct (given (su_leaderId body)); simpl.
    + destruct (leader_is (syncState s) (default "" (su_leaderId body))) eqn:Hl.
      * rewrite leader_is_refresh, Hl.
        apply map_eq. intros k.
        destruct (stateUpdates (su_rest body) !! k) as [v|] eqn:Hk.
        { by rewrite !(lookup_union_Some_l _ _ k v Hk). }
        rewrite !(lookup_union_r _ _ k Hk).
        destruct (decide (k = "leaderHeartbeat")) as [->|Hne].
        { by rewrite !lookup_insert_eq. }
        rewrite lookup_insert_ne by done. by rewrite (lookup_union_r _ _ k Hk).
      * rewrite Hl. by rewrite (assoc_L (∪)), (idemp_L (∪)).
    + by rewrite (assoc_L (∪)), (idemp_L (∪)).
  - destruct (given (su_leaderId body)); [|done].
    apply registerBrowser_idem.
Qed.

(** X14.  Once the timer has evicted the leader's record, the next claim
    with a non-empty id is granted at whatever clock reading it comes,
    forced or not, and makes the claimant leader; the evicted record is
    still gone unless the claimant is the old leader itself. *)
Theorem claim_after_eviction t1 t2 s a i req b :
  syncState s !! "leaderId" = Some (VStr a) →
  connectedBrowsers s !! a = Some i →
  t1 - lastSeen i > 30000 →
  cl_browserId req = Some b → b ≠ "" →
  let r := claim_leader t2 req (sweep t1 s) in
  r.2 = ClaimGranted b (getBrowserStats t2 r.1) ∧
  syncState r.1 !! "leaderId" = Some (VStr b) ∧
  syncState r.1 !! "leaderHeartbeat" = Some (VNum (or_now (cl_timestamp req) t2)) ∧
  (b ≠ a → connectedBrowsers r.1 !! a = None).
Proof.
  intros Hl Hi Hst Hreq Hb. cbv zeta.
  assert (stale t1 i = true) as Hstale.
  { unfold stale, BROWSER_TIMEOUT. rewrite Z.gtb_ltb, Z.ltb_lt. lia. }
  assert (syncState (sweep t1 s) = clear_leader (syncState s)) as Hss.
  { by rewrite sweep_syncState, Hl, Hi, Hstale. }
  rewrite (claim_leader_given _ _ _ _ Hreq Hb). cbv zeta.
  rewrite Hss, clear_leader_id. simpl. rewrite orb_true_r. simpl.
  rewrite set_leader_id, set_leader_hb.
  split; [done|]. split; [done|]. split; [done|].
  intros Hne. rewrite registerBrowser_other by done.
  by rewrite sweep_lookup, Hi, Hstale.
Qed.

Lemma claim_after_eviction_witness :
  syncState (claim_leader 31002 (claim_by "B" None) (sweep 31001 held_by_A)).1
    !! "leaderId" = Some (VStr "B").
Proof.
  apply (claim_after_eviction 31001 31002 held_by_A "A"
           {| lastSeen := 1000; tf := VStr "5" |} (claim_by "B" None) "B");
    try done; simpl; lia.
Defined.

Lemma browser_of_fresh now ss id tag :
  browser_of now ss (id, {| lastSeen := now; tf := js_or tag (VStr "5") |}) =
  {| b_id := slice_last 8 id; b_browserId := id;
     b_isLeader := leader_is ss id;
     b_status := if leader_is ss id then leader else online;
     b_lastSeen := 0; b_tf := js_or tag (VStr "5") |}.
Proof.
  unfold browser_of. cbn [lastSeen tf js_or]. rewrite Z.sub_diag.
  rewrite truthy_js_or by done. by destruct (leader_is ss id).
Qed.

(** X15.  The answer to a claim with a non-empty id other than
    [__proto__] always lists the claimant, seen 0 seconds ago, with the tag
    it sent (or ['5']): with status [leader] when the claim is granted and
    [online] when it is turned down. *)
Theorem claim_response_lists_claimant now req s id :
  cl_browserId req = Some id → id ≠ "" → id ≠ "__proto__" →
  let r := (claim_leader now req s).2 in
  ∃ st, stats_of r = Some st ∧
    {| b_id := slice_last 8 id; b_browserId := id;
       b_isLeader := bool_decide (success r = Some true);
       b_status := if bool_decide (success r = Some true) then leader else online;
       b_lastSeen := 0;
       b_tf := match cl_tf req with
               | Some t => if truthy t then t else VStr "5"
               | None => VStr "5"
               end |}
    ∈ browsersList st.
Proof.
  intros Hreq Hid Hp. rewrite (claim_leader_given _ _ _ _ Hreq Hid). cbv zeta.
  change (match cl_tf req with
          | Some t => if truthy t then t else VStr "5"
          | None => VStr "5"
          end) with (js_or (cl_tf req) (VStr "5")).
  assert (∀ ss, browser_of now ss
            (id, {| lastSeen := now; tf := js_or (cl_tf req) (VStr "5") |})
          ∈ browsersList (getBrowserStats now
              {| syncState := ss;
                 connectedBrowsers :=
                   registerBrowser now id (cl_tf req) (connectedBrowsers s) |}))
    as Hin.
  { intros ss. apply elem_of_browsersList. eexists id, _. split; [|done].
    by apply registerBrowser_lookup. }
  destruct (_ || _ || _); cbn [snd stats_of success].
  { eexists. split; [done|]. rewrite bool_decide_eq_true_2 by done.
    specialize (Hin (set_leader id (or_now (cl_timestamp req) now) (syncState s))).
    rewrite browser_of_fresh in Hin.
    assert (leader_is (set_leader id (or_now (cl_timestamp req) now) (syncState s)) id
            = true) as Hl by (apply leader_is_spec, set_leader_id).
    by rewrite Hl in Hin. }
  destruct (leader_is (syncState s) id) eqn:Hl; cbn [snd stats_of success].
  - eexists. split; [done|]. rewrite bool_decide_eq_true_2 by done.
    specialize (Hin (<["leaderHeartbeat" :=
                         VNum (or_now (cl_timestamp req) now)]> (syncState s))).
    rewrite browser_of_fresh, leader_is_refresh in Hin. by rewrite Hl in Hin.
  - eexists. split; [done|]. rewrite bool_decide_eq_false_2 by done.
    specialize (Hin (syncState s)). rewrite browser_of_fresh in Hin.
    by rewrite Hl in Hin.
Qed.

Lemma claim_response_lists_claimant_witness :
  ∃ st, stats_of (claim_leader 9000 (claim_by "B" None) held_by_A).2 = Some st ∧
    {| b_id := "B"; b_browserId := "B"; b_isLeader := false;
       b_status := online; b_lastSeen := 0; b_tf := VStr "5" |}
    ∈ browsersList st.
Proof.
  apply (claim_response_lists_claimant 9000 (claim_by "B" None) held_by_A "B");
    [reflexivity | done | done].
Defined.

(** ** The helpers on strings and numbers *)

Lemma length_append (p q : string) :
  String.length (p +:+ q) = (String.length p + String.length q)%nat.
Proof. induction p as [|c p IH]; simpl; [done | by rewrite IH]. Qed.

Lemma substring_whole n s :
  (String.length s ≤ n)%nat → String.substring 0 n s = s.
Proof.
  revert n. induction s as [|c s IH]; intros n Hn.
  - by destruct n.
  - destruct n as [|n]; simpl in *; [lia|]. rewrite IH; [done | lia].
Qed.

Lemma substring_suffix s m n :
  (m ≤ String.length s)%nat → (String.length s ≤ m + n)%nat →
  ∃ p, String.length p = m ∧ s = p +:+ String.substring m n s.
Proof.
  revert m. induction s as [|c s IH]; intros m Hm Hn.
  - exists "". simpl in *. split; [lia|]. by destruct m, n.
  - destruct m as [|m].
    + exists "". split; [done|]. by rewrite substring_whole.
    + simpl in *. destruct (IH m) as (p & Hp & Hs); [lia | lia |].
      exists (String c p). split; [simpl; by rewrite Hp|].
      change (String c s = String c (p +:+ String.substring m n s)). by f_equal.
Qed.

(** X16.  [s.slice(-n)] as embedded: the result is a suffix of [s], it has
    [min n (length s)] characters, and it is [s] itself when [s] has at
    most [n] characters.  So the short id of a browser is its last 8
    characters, and the whole id when that is shorter. *)
Theorem slice_last_suffix n s :
  (∃ p, s = p +:+ slice_last n s) ∧
  String.length (slice_last n s) = (n `min` String.length s)%nat ∧
  ((String.length s ≤ n)%nat → slice_last n s = s).
Proof.
  unfold slice_last.
  destruct (substring_suffix s (String.length s - n) n) as (p & Hp & Hs);
    [lia | lia |].
  split; [by exists p|]. split.
  - apply (f_equal String.length) in Hs. rewrite length_append, Hp in Hs. lia.
  - intros Hle. replace (String.length s - n)%nat with 0%nat by lia.
    by apply substring_whole.
Qed.

Lemma slice_last_suffix_witness : slice_last 8 "A" = "A".
Proof. apply (slice_last_suffix 8 "A"). simpl. lia. Defined.

(** X17.  [Math.round(d / 1000)] as embedded: the result is the whole
    number of seconds nearest to [d] ms, halves rounded up, and it grows
    with [d].  So the ['Ns ago'] of a snapshot is within half a second of
    the record's age. *)
Theorem round_seconds_nearest d d' :
  1000 * round_seconds d - 500 ≤ d < 1000 * round_seconds d + 500 ∧
  (d ≤ d' → round_seconds d ≤ round_seconds d') ∧
  (∀ k, 1000 * k - 500 ≤ d < 1000 * k + 500 → round_seconds d = k).
Proof.
  unfold round_seconds. split; [|split].
  - Z.to_euclidean_division_equations. lia.
  - intros Hle. apply Z.div_le_mono; lia.
  - intros k Hk. symmetry. apply (Z.div_unique_pos _ _ _ (d + 500 - 1000 * k)); lia.
Qed.

Lemma round_seconds_nearest_witness :
  round_seconds 10499 ≤ round_seconds 10500 ∧ round_seconds 10500 = 11.
Proof.
  destruct (round_seconds_nearest 10499 10500) as (_ & Hmono & _).
  destruct (round_seconds_nearest 10500 10500) as (_ & _ & Hk).
  split; [apply Hmono; lia | apply Hk; lia].
Defined.

(** ** Round trips *)

(** X18.  What a browser posts under a field name other than the two
    election keys is stored, and the next GET /sync-state answers with it;
    except that a field posted under one of the three snapshot names is
    stored but not shown, the snapshot takes its place. *)
Theorem post_then_get now1 now2 body id tag s (k : string) v :
  su_rest body !! k = Some v →
  k ≠ "leaderId" → k ≠ "leaderHeartbeat" →
  let s1 := (post_sync_state now1 body s).1 in
  syncState s1 !! k = Some v ∧
  ∃ st stats,
    (get_sync_state now2 id tag s1).2 = StateView st stats ∧
    st !! k = (if bool_decide (k ∈ ["totalBrowsers"; "browsersOnline"; "browsersList"])
               then None else Some v).
Proof.
  intros Hk H1 H2. cbv zeta.
  assert (syncState (post_sync_state now1 body s).1 !! k = Some v) as Hs.
  { simpl. by rewrite merge_other, Hk by done. }
  split; [exact Hs|]. eexists _, _. split; [reflexivity|].
  assert (syncState (if given id
            then {| syncState := syncState (post_sync_state now1 body s).1;
                    connectedBrowsers :=
                      registerBrowser now2 (default "" id) tag
                        (connectedBrowsers (post_sync_state now1 body s).1) |}
            else (post_sync_state now1 body s).1)
          = syncState (post_sync_state now1 body s).1) as ->
    by (by destruct (given id)).
  unfold state_view. case_bool_decide as Hin.
  - repeat (apply elem_of_cons in Hin as [->|Hin]);
      [| | |by apply elem_of_nil in Hin].
    + apply lookup_delete_eq.
    + rewrite lookup_delete_ne by done. apply lookup_delete_eq.
    + rewrite !lookup_delete_ne by done. apply lookup_delete_eq.
  - rewrite !lookup_delete_ne; [exact Hs | | |]; intros <-; apply Hin; set_solver.
Qed.

Lemma post_then_get_witness :
  ∃ st stats,
    (get_sync_state 3000 None None
       (post_sync_state 2000 payload_with_election_keys held_by_A).1).2
      = StateView st stats ∧
    st !! "symbol" = Some (VStr "XYZ").
Proof.
  destruct (post_then_get 2000 3000 payload_with_election_keys None None
              held_by_A "symbol" (VStr "XYZ")) as (_ & st & stats & Hr & Hst);
    [reflexivity | done | done |].
  exists st, stats. split; [exact Hr | exact Hst].
Defined.

Lemma set_leader_stable id hb (ss : gmap string value) :
  ss !! "leaderId" = Some (VStr id) →
  ss !! "leaderHeartbeat" = Some (VNum hb) →
  set_leader id hb ss = ss ∧ <["leaderHeartbeat" := VNum hb]> ss = ss.
Proof.
  intros Hl Hh. unfold set_leader. by rewrite (insert_id ss), (insert_id ss).
Qed.

(** X19.  Repeating a claim at the same clock reading changes nothing:
    the second run ends in the state of the first and gives the same
    answer, whether the claim was granted, turned down or refused. *)
Theorem claim_leader_idempotent now req s :
  claim_leader now req (claim_leader now req s).1 = claim_leader now req s.
Proof.
  destruct (given (cl_browserId req)) eqn:Hg.
  2:{ unfold claim_leader. by rewrite Hg. }
  apply given_Some in Hg as (id & Hreq & Hid).
  set (ts := or_now (cl_timestamp req) now).
  set (cb1 := registerBrowser now id (cl_tf req) (connectedBrowsers s)).
  assert (registerBrowser now id (cl_tf req) cb1 = cb1) as Hcb
    by apply registerBrowser_idem.
  (* a state in which the claimant leads with heartbeat [ts] is a fixed point *)
  assert (∀ ss1, ss1 !! "leaderId" = Some (VStr id) →
            ss1 !! "leaderHeartbeat" = Some (VNum ts) →
            claim_leader now req {| syncState := ss1; connectedBrowsers := cb1 |}
            = ({| syncState := ss1; connectedBrowsers := cb1 |},
               ClaimGranted id
                 (getBrowserStats now
                    {| syncState := ss1; connectedBrowsers := cb1 |}))) as Hfix.
  { intros ss1 Hl Hh. rewrite (claim_leader_given _ _ _ _ Hreq Hid). cbv zeta.
    cbn [syncState connectedBrowsers]. fold ts. rewrite Hcb.
    destruct (set_leader_stable id ts ss1 Hl Hh) as [-> ->].
    destruct (_ || _ || _); [done|].
    apply leader_is_spec in Hl. by rewrite Hl. }
  rewrite (claim_leader_given now req s id Hreq Hid). cbv zeta. fold ts cb1.
  destruct (truthy_opt (cl_force req) || _ || _) eqn:Hgrant; cbn [fst].
  { apply Hfix; [apply set_leader_id | apply set_leader_hb]. }
  destruct (leader_is (syncState s) id) eqn:Hl; cbn [fst].
  { apply Hfix; [|apply lookup_insert_eq].
    rewrite refresh_id. by apply leader_is_spec. }
  rewrite (claim_leader_given _ _ _ _ Hreq Hid). cbv zeta.
  cbn [syncState connectedBrowsers]. fold ts. by rewrite Hcb, Hgrant, Hl.
Qed.
